(** * Procurement system: budget availability, reservation, idempotent
      request handling and three-way reconciliation

    A shallow embedding of the budget service of the procurement system
    ([services/budget-service], Java / Spring Boot) together with the
    Java listings of the implementation plan that the running service does
    not yet contain, the two functions the sources declare without a body
    (reservation by business key and the three-way match, modelled from the
    specification), and the properties of the specification stated and
    settled over that embedding.  The callers of the budget service (its
    REST controller and the proxies of the API gateway), the Kafka service
    of the gateway and the user service (NestJS) are embedded as well, with
    the properties their code shows.

    Layout: all definitions first (one module per source unit), then the
    lemmas and theorems. *)

From Stdlib Require Import ZArith QArith Qabs Qpower Lia Lqa.
From stdpp Require Import base option list strings gmap.

Local Open Scope Z_scope.

(* ===================================================================== *)
(** ** java.math.BigDecimal                                               *)
(* ===================================================================== *)

(** A [BigDecimal] is an arbitrary-precision unscaled integer together with
    a scale: the number it denotes is [unscaledValue * 10 ^ (- scale)].
    There is no mantissa of fixed width and no binary fraction: the
    arithmetic below is exact.  Java keeps the scale in an [int]; the
    amounts of the service are columns of scale 2, and the scale is left
    unbounded here. *)
Module BigDecimal.

Record t : Type := mk { unscaledValue : Z; scale : Z }.

(** [BigDecimal.ZERO] *)
Definition ZERO : t := mk 0 0.

(** [BigDecimal.valueOf(unscaledVal, scale)] *)
Definition valueOf (u s : Z) : t := mk u s.

(** The unscaled value of [b] once it is aligned to the scale [s], for
    [scale b <= s] (the only direction [add], [subtract] and [compareTo]
    ever rescale in: towards the larger of the two scales). *)
Definition aligned (s : Z) (b : t) : Z := unscaledValue b * 10 ^ (s - scale b).

(** [a.add(b)]: the scale of the result is [max(a.scale(), b.scale())]. *)
Definition add (a b : t) : t :=
  let s := Z.max (scale a) (scale b) in
  mk (aligned s a + aligned s b) s.

(** [a.subtract(b)]: the scale of the result is [max(a.scale(), b.scale())]. *)
Definition subtract (a b : t) : t :=
  let s := Z.max (scale a) (scale b) in
  mk (aligned s a - aligned s b) s.

(** [a.compareTo(b)]: -1, 0 or 1; values equal up to scale compare as 0. *)
Definition compareTo (a b : t) : Z :=
  let s := Z.max (scale a) (scale b) in
  match aligned s a ?= aligned s b with
  | Lt => -1
  | Eq => 0
  | Gt => 1
  end.

(** The rational number a [BigDecimal] denotes. *)
Definition value (b : t) : Q := inject_Z (unscaledValue b) * inject_Z 10 ^ (- scale b).

End BigDecimal.

Abbreviation BigDecimal := BigDecimal.t.

(* ===================================================================== *)
(** ** java.time.LocalDateTime                                            *)
(* ===================================================================== *)

(** The service observes a [LocalDateTime] in two ways only: [getYear()] and
    [toString()].  A time stamp is modelled by these two observations. *)
Record LocalDateTime : Type := mkLocalDateTime {
  getYear : Z;
  toString : string
}.

(* ===================================================================== *)
(** ** entity/Department.java                                             *)
(* ===================================================================== *)

Module Department.

(** One row of the table [departments].  Columns declared
    [nullable = false] (and the primary key) carry a value; [currency] and
    [updated_at] may be NULL. *)
Record t : Type := mk {
  id : string;
  name : string;
  totalBudget : BigDecimal;
  usedBudget : BigDecimal;
  reservedBudget : BigDecimal;
  fiscalYear : Z;
  currency : option string;
  createdAt : LocalDateTime;
  updatedAt : option LocalDateTime
}.

(** [Department.getAvailableBudget()]: Available = Total - Used - Reserved. *)
Definition getAvailableBudget (d : t) : BigDecimal :=
  BigDecimal.subtract
    (BigDecimal.subtract (totalBudget d) (usedBudget d))
    (reservedBudget d).

(** The setters Lombok's [@Data] generates for the three amounts: plain
    field assignments. *)
Definition setTotalBudget (v : BigDecimal) (d : t) : t :=
  mk (id d) (name d) v (usedBudget d) (reservedBudget d)
    (fiscalYear d) (currency d) (createdAt d) (updatedAt d).

Definition setUsedBudget (v : BigDecimal) (d : t) : t :=
  mk (id d) (name d) (totalBudget d) v (reservedBudget d)
    (fiscalYear d) (currency d) (createdAt d) (updatedAt d).

Definition setReservedBudget (v : BigDecimal) (d : t) : t :=
  mk (id d) (name d) (totalBudget d) (usedBudget d) v
    (fiscalYear d) (currency d) (createdAt d) (updatedAt d).

(** [@PrePersist onCreate()]: both time stamps are read from the clock
    ([t1], then [t2]). *)
Definition onCreate (t1 t2 : LocalDateTime) (d : t) : t :=
  mk (id d) (name d) (totalBudget d) (usedBudget d) (reservedBudget d)
    (fiscalYear d) (currency d) t1 (Some t2).

(** [@PreUpdate onUpdate()] *)
Definition onUpdate (now : LocalDateTime) (d : t) : t :=
  mk (id d) (name d) (totalBudget d) (usedBudget d) (reservedBudget d)
    (fiscalYear d) (currency d) (createdAt d) (Some now).

End Department.

Abbreviation Department := Department.t.

(* ===================================================================== *)
(** ** dto/BudgetAvailabilityResponse.java                                *)
(* ===================================================================== *)

Module BudgetAvailabilityResponse.

Record t : Type := mk {
  departmentId : string;
  departmentName : string;
  totalBudget : BigDecimal;
  usedBudget : BigDecimal;
  reservedBudget : BigDecimal;
  availableBudget : BigDecimal;
  fiscalYear : Z;
  currency : option string;
  status : string
}.

(** [BudgetAvailabilityResponse.from(department)] *)
Definition from (department : Department) : t :=
  mk (Department.id department)
     (Department.name department)
     (Department.totalBudget department)
     (Department.usedBudget department)
     (Department.reservedBudget department)
     (Department.getAvailableBudget department)
     (Department.fiscalYear department)
     (Department.currency department)
     (if BigDecimal.compareTo (Department.getAvailableBudget department) BigDecimal.ZERO >? 0
      then "available" else "depleted").

End BudgetAvailabilityResponse.

Abbreviation BudgetAvailabilityResponse := BudgetAvailabilityResponse.t.

(* ===================================================================== *)
(** ** Effects of the service: exceptions, the database table, the broker,
       the log                                                            *)
(* ===================================================================== *)

(** The exceptions that occur in the service. [RuntimeException] carries its
    message and, when it wraps another exception, its cause. *)
Inductive Throwable : Type :=
| RuntimeException (message : string)
| RuntimeExceptionCausedBy (message : string) (cause : Throwable)
| JsonProcessingException
| KafkaException
| NullPointerException.

(** A Java call either returns a value or throws. *)
Inductive Outcome (A : Type) : Type :=
| Returned (a : A)
| Thrown (e : Throwable).

Arguments Returned {A} a.
Arguments Thrown {A} e.

(** Levels of the slf4j logger the service writes to. *)
Inductive Level : Type := INFO | DEBUG | ERROR.

(** Values stored in the [Map<String, Object>] of an audit event. *)
Inductive Obj : Type :=
| OString (s : string)
| ODecimal (b : BigDecimal).

(** What the service can touch: the rows of the table [departments], the
    records [KafkaTemplate.send] has accepted for the broker (topic and
    payload, oldest first; whether the broker acknowledges a record later is
    reported through a future the service never looks at) and the lines
    written to the log (oldest first; a line is kept as its level
    and its message pattern, the arguments are not rendered). *)
Record World : Type := mkWorld {
  departments : list Department;
  published : list (string * string);
  logOut : list (Level * string)
}.

(** What the service cannot decide: whether Jackson serialises an event
    ([None]: [JsonProcessingException]) and whether [KafkaTemplate.send]
    accepts a record for a topic ([false]: it throws [KafkaException]). *)
Record KafkaEnv : Type := mkKafkaEnv {
  writeValueAsString : gmap string Obj -> option string;
  sendAccepted : string -> string -> bool
}.

(** The two readings of the wall clock during one availability query:
    [LocalDateTime.now()] in [getAvailableBudget] and in
    [publishBudgetQueryEvent]. *)
Record Clock : Type := mkClock {
  nowAtLookup : LocalDateTime;
  nowAtPublish : LocalDateTime
}.

(** Computations over a store [S]: a state transformer that returns or
    throws.  The store reached is kept when an exception is thrown (what was
    logged or sent before the throw stays logged or sent). *)
Definition Eff (S A : Type) : Type := S -> Outcome A * S.

#[global] Instance Eff_ret {S : Type} : MRet (Eff S) :=
  fun A (a : A) (s : S) => (Returned a, s).

#[global] Instance Eff_bind {S : Type} : MBind (Eff S) :=
  fun A B (f : A -> Eff S B) (m : Eff S A) (s : S) =>
    match m s with
    | (Returned a, s') => f a s'
    | (Thrown e, s') => (Thrown e, s')
    end.

(** [throw e] *)
Definition throw {S A : Type} (e : Throwable) : Eff S A := fun s => (Thrown e, s).

(** [try { body } catch (Exception e) { handler }] *)
Definition tryCatch {S A : Type} (body : Eff S A) (handler : Throwable -> Eff S A)
  : Eff S A :=
  fun s =>
    match body s with
    | (Returned a, s') => (Returned a, s')
    | (Thrown e, s') => handler e s'
    end.

(** Computations of the running service. *)
Abbreviation M := (Eff World).

(** [log.info], [log.debug], [log.error]: one line appended to the log. *)
Definition log (l : Level) (pattern : string) : M unit :=
  fun w => (Returned tt, mkWorld (departments w) (published w) (logOut w ++ [(l, pattern)])).

(* ===================================================================== *)
(** ** repository/DepartmentRepository                                     *)
(* ===================================================================== *)

Module DepartmentRepository.

(** Modelled from the spec: the interface [DepartmentRepository] is not among
    the sources; only its call [findByIdAndFiscalYear(departmentId,
    currentYear)] is.  The specification identifies an account by
    (department identifier, fiscal period); the query returns the row of the
    table with that identifier and that fiscal year, if there is one
    ([Optional.empty()] otherwise), and reads the table only. *)
Definition findByIdAndFiscalYear (departmentId : string) (year : Z)
  : M (option Department) :=
  fun w =>
    (Returned
       (List.find
          (fun d => bool_decide (Department.id d = departmentId)
                    && (Department.fiscalYear d =? year))
          (departments w)),
     w).

End DepartmentRepository.

(* ===================================================================== *)
(** ** kafka/KafkaProducerService.java                                    *)
(* ===================================================================== *)

Module KafkaProducerService.

(** [objectMapper.writeValueAsString(event)] *)
Definition serialise (env : KafkaEnv) (event : gmap string Obj) : M string :=
  match writeValueAsString env event with
  | Some json => mret json
  | None => throw JsonProcessingException
  end.

(** [kafkaTemplate.send(topic, eventJson)]: the call either throws or
    accepts the record and returns a future, which [sendEvent] discards.  A
    delivery that fails after the call has returned is therefore not an
    outcome of [send]: the record counts as handed over. *)
Definition send (env : KafkaEnv) (topic json : string) : M unit :=
  fun w =>
    if sendAccepted env topic json
    then (Returned tt, mkWorld (departments w) (published w ++ [(topic, json)]) (logOut w))
    else (Thrown KafkaException, w).

(** [sendEvent(topic, event)]: any failure is logged and rethrown as a
    [RuntimeException] that wraps it. *)
Definition sendEvent (env : KafkaEnv) (topic : string) (event : gmap string Obj) : M unit :=
  tryCatch
    (eventJson ← serialise env event;
     send env topic eventJson;;
     log DEBUG "Event sent to Kafka topic {}: {}")
    (fun e =>
       log ERROR "Failed to send event to Kafka topic: {}";;
       throw (RuntimeExceptionCausedBy "Failed to send Kafka event" e)).

End KafkaProducerService.

(* ===================================================================== *)
(** ** service/BudgetService.java                                         *)
(* ===================================================================== *)

Module BudgetService.

(** The audit event [publishBudgetQueryEvent] builds: a [HashMap] filled by
    six [put]s. *)
Definition budgetQueriedEvent (now : LocalDateTime) (departmentId : string)
    (response : BudgetAvailabilityResponse) : gmap string Obj :=
  <["service" := OString "budget-service"]>
  (<["timestamp" := OString (toString now)]>
  (<["totalBudget" := ODecimal (BudgetAvailabilityResponse.totalBudget response)]>
  (<["availableBudget" := ODecimal (BudgetAvailabilityResponse.availableBudget response)]>
  (<["departmentId" := OString departmentId]>
  (<["eventType" := OString "BUDGET_QUERIED"]> ∅))))).

(** [publishBudgetQueryEvent(departmentId, response)]: publishes the audit
    event; [catch (Exception e)] logs a failure and does not rethrow. *)
Definition publishBudgetQueryEvent (env : KafkaEnv) (now : LocalDateTime)
    (departmentId : string) (response : BudgetAvailabilityResponse) : M unit :=
  tryCatch
    (KafkaProducerService.sendEvent env "budget.events"
       (budgetQueriedEvent now departmentId response);;
     log DEBUG "Budget query event published to Kafka")
    (fun _ => log ERROR "Failed to publish budget query event to Kafka").

(** [getAvailableBudget(departmentId)] *)
Definition getAvailableBudget (env : KafkaEnv) (clock : Clock) (departmentId : string)
  : M BudgetAvailabilityResponse :=
  log INFO "Fetching budget availability for department: {}";;
  let currentYear := getYear (nowAtLookup clock) in
  found ← DepartmentRepository.findByIdAndFiscalYear departmentId currentYear;
  department ← match found with
               | Some d => mret d
               | None =>
                   log ERROR "Department not found: {} for fiscal year: {}";;
                   throw (RuntimeException ("Department not found: " +:+ departmentId))
               end;
  let response := BudgetAvailabilityResponse.from department in
  publishBudgetQueryEvent env (nowAtPublish clock) departmentId response;;
  log INFO "Budget availability retrieved for {}: Available={}, Total={}";;
  mret response.

End BudgetService.

(* ===================================================================== *)
(** ** IMPLEMENTATION_PLAN.md, Q3: BudgetService.reserveBudget             *)
(* ===================================================================== *)

(** The running service has no mutating operation.  Reservation exists in
    the sources as the Java listing of the implementation plan (answer to
    Q3, repeated in client-questions-answers.md); this module embeds that
    listing.  The row lock ([SELECT ... FOR UPDATE]) serialises concurrent
    calls; the embedding is of one call running alone. *)
Module BudgetServicePlan.

(** [DepartmentBudget], by the accessors the listing uses. *)
Record DepartmentBudget : Type := mkDepartmentBudget {
  getId : string;
  getDepartmentId : string;
  getTotalAmount : BigDecimal;
  getSpentAmount : BigDecimal;
  getReservedAmount : BigDecimal
}.

(** [budget.setReservedAmount(v)] *)
Definition setReservedAmount (v : BigDecimal) (b : DepartmentBudget) : DepartmentBudget :=
  mkDepartmentBudget (getId b) (getDepartmentId b) (getTotalAmount b) (getSpentAmount b) v.

(** [BudgetTransaction], by the fields the listing's builder sets. *)
Record BudgetTransaction : Type := mkBudgetTransaction {
  budgetId : string;
  transactionType : string;
  amount : BigDecimal
}.

(** [ReservationResult.success()] and [ReservationResult.insufficient(available)] *)
Inductive ReservationResult : Type :=
| success
| insufficient (available : BigDecimal).

(** The two tables the listing reads and writes: [department_budgets], one
    row per department identifier, and the transaction rows, oldest first. *)
Record Ledger : Type := mkLedger {
  budgets : gmap string DepartmentBudget;
  transactions : list BudgetTransaction
}.

(** [budgetRepository.findByDepartmentIdWithLock(deptId)]: the row, or
    [null]. *)
Definition findByDepartmentIdWithLock (deptId : string) : Eff Ledger (option DepartmentBudget) :=
  fun l => (Returned (budgets l !! deptId), l).

(** [budgetRepository.save(budget)] *)
Definition saveBudget (b : DepartmentBudget) : Eff Ledger unit :=
  fun l => (Returned tt, mkLedger (<[getDepartmentId b := b]> (budgets l)) (transactions l)).

(** [transactionRepository.save(txn)] *)
Definition saveTransaction (txn : BudgetTransaction) : Eff Ledger unit :=
  fun l => (Returned tt, mkLedger (budgets l) (transactions l ++ [txn])).

(** [reserveBudget(departmentId, amount)] *)
Definition reserveBudget (departmentId : string) (amount : BigDecimal)
  : Eff Ledger ReservationResult :=
  (* 1. LOCK the budget row *)
  row ← findByDepartmentIdWithLock departmentId;
  budget ← match row with
           | Some b => mret b
           | None => throw NullPointerException
           end;
  (* 2. Calculate available amount *)
  let available :=
    BigDecimal.subtract
      (BigDecimal.subtract (getTotalAmount budget) (getSpentAmount budget))
      (getReservedAmount budget) in
  (* 3. Check if sufficient *)
  if BigDecimal.compareTo available amount <? 0
  then mret (insufficient available)
  else
    (* 4. Reserve the amount *)
    let budget' := setReservedAmount (BigDecimal.add (getReservedAmount budget) amount) budget in
    saveBudget budget';;
    (* 5. Create transaction record *)
    saveTransaction (mkBudgetTransaction (getId budget') "RESERVE" amount);;
    mret success.

End BudgetServicePlan.

(* ===================================================================== *)
(** ** IMPLEMENTATION_PLAN.md, 4.10 (option 2):
       PurchaseRequestService.createRequest                               *)
(* ===================================================================== *)

(** Idempotent request handling exists in the sources as the listings of the
    implementation plan.  This module embeds the recommended one (the
    idempotency-key pattern over Redis with a 24 hour expiry). *)
Module PurchaseRequestService.

Section CreateRequest.

(** The payload, the response and the application state [processRequest]
    works on are not fixed by the listing. *)
Variables CreateRequestDto PurchaseRequest App : Type.

(** [processRequest(dto)]: the operation guarded by the idempotency key. *)
Variable processRequest : CreateRequestDto -> Eff App PurchaseRequest.

(** [CachedResponse]: the response and the instant (epoch seconds) it was
    cached at. *)
Record CachedResponse : Type := mkCachedResponse {
  getResponse : PurchaseRequest;
  cachedAt : Z
}.

(** A Redis entry: the value and the instant it expires at. *)
Record Entry : Type := mkEntry {
  entryValue : CachedResponse;
  expiresAt : Z
}.

(** The store of the listing: the Redis keys and the application state. *)
Record Store : Type := mkStore {
  redis : gmap string Entry;
  app : App
}.

(** [Duration.ofHours(24)], in seconds. *)
Definition ttlSeconds : Z := 24 * 3600.

(** [redis.opsForValue().get(redisKey)] at instant [now]: the value of a key
    that is present and has not expired, [null] otherwise. *)
Definition redisGet (now : Z) (redisKey : string) : Eff Store (option CachedResponse) :=
  fun s =>
    (Returned
       (match redis s !! redisKey with
        | Some e => if now <? expiresAt e then Some (entryValue e) else None
        | None => None
        end),
     s).

(** [redis.opsForValue().set(redisKey, value, ttl)] at instant [now] *)
Definition redisSet (now : Z) (redisKey : string) (v : CachedResponse) (ttl : Z)
  : Eff Store unit :=
  fun s => (Returned tt, mkStore (<[redisKey := mkEntry v (now + ttl)]> (redis s)) (app s)).

(** [processRequest] run on the application part of the store. *)
Definition runProcessRequest (dto : CreateRequestDto) : Eff Store PurchaseRequest :=
  fun s =>
    match processRequest dto (app s) with
    | (r, a') => (r, mkStore (redis s) a')
    end.

(** [createRequest(dto, idempotencyKey)], called at instant [now]. *)
Definition createRequest (now : Z) (dto : CreateRequestDto) (idempotencyKey : string)
  : Eff Store PurchaseRequest :=
  let redisKey := "request:idempotency:" +:+ idempotencyKey in
  (* Try to get cached response *)
  cached ← redisGet now redisKey;
  match cached with
  | Some c => mret (getResponse c)
  | None =>
      (* First time - process *)
      request ← runProcessRequest dto;
      (* Cache for 24 hours *)
      let toCache := mkCachedResponse request now in
      redisSet now redisKey toCache ttlSeconds;;
      mret request
  end.

End CreateRequest.

Arguments mkCachedResponse {PurchaseRequest} _ _.
Arguments getResponse {PurchaseRequest} _.
Arguments cachedAt {PurchaseRequest} _.
Arguments mkEntry {PurchaseRequest} _ _.
Arguments entryValue {PurchaseRequest} _.
Arguments expiresAt {PurchaseRequest} _.
Arguments mkStore {PurchaseRequest App} _ _.
Arguments redis {PurchaseRequest App} _.
Arguments app {PurchaseRequest App} _.
Arguments redisGet {PurchaseRequest App} now redisKey _.
Arguments redisSet {PurchaseRequest App} now redisKey v ttl _.
Arguments runProcessRequest {CreateRequestDto PurchaseRequest App} processRequest dto _.
Arguments createRequest {CreateRequestDto PurchaseRequest App} processRequest now dto idempotencyKey _.

(** A client that retries: the calls of [retries], each an instant and a
    payload, made one after the other with the same idempotency key.  The
    outcomes are returned in the order of the calls. *)
Fixpoint retry {CreateRequestDto PurchaseRequest App : Type}
    (processRequest : CreateRequestDto -> Eff App PurchaseRequest)
    (idempotencyKey : string) (retries : list (Z * CreateRequestDto))
    (s : Store PurchaseRequest App)
  : list (Outcome PurchaseRequest) * Store PurchaseRequest App :=
  match retries with
  | [] => ([], s)
  | (now, dto) :: rest =>
      match createRequest processRequest now dto idempotencyKey s with
      | (o, s') =>
          match retry processRequest idempotencyKey rest s' with
          | (os, s'') => (o :: os, s'')
          end
      end
  end.

End PurchaseRequestService.

(* ===================================================================== *)
(** ** Reconciliation engine (three-way match)                             *)
(* ===================================================================== *)

(** The sources call [invoiceService.perform3WayMatch(invoice)] and declare
    the table [invoice_matching]; the matching function itself is not among
    them. *)
Module Reconciliation.

Local Open Scope Q_scope.

Inductive Verdict : Type := Matched | WithinTolerance | Mismatch.

(** A purchase order, by its identifier and amount. *)
Record Order : Type := mkOrder {
  orderId : string;
  poAmount : Q
}.

(** One received line: the quantity received and the unit price. *)
Record ReceiptLine : Type := mkReceiptLine {
  receivedQuantity : Q;
  unitPrice : Q
}.

(** A goods receipt. *)
Record Receipt : Type := mkReceipt {
  receiptId : string;
  receiptLines : list ReceiptLine
}.

(** An invoice, by its identifier and amount. *)
Record Invoice : Type := mkInvoice {
  invoiceId : string;
  invoiceAmount : Q
}.

Record MatchResult : Type := mkMatchResult {
  resultOrderId : string;
  resultReceiptId : string;
  resultInvoiceId : string;
  resultPoAmount : Q;
  resultReceiptAmount : Q;
  resultInvoiceAmount : Q;
  variance : Q;
  variancePercent : Q;
  verdict : Verdict;
  tolerancePercent : Q
}.

(** Modelled from the spec: the receipt amount, missing from the sources, is
    computed from received quantities times unit price (not the ordered
    quantity).  Decimal amounts are taken as the rationals they denote. *)
Definition receiptAmount (r : Receipt) : Q :=
  fold_right (fun l acc => receivedQuantity l * unitPrice l + acc) 0 (receiptLines r).

(** Modelled from the spec: the function [match] of the reconciliation
    engine, missing from the sources.  [variance = invoiceAmount -
    receiptAmount]; [variancePercent = |variance| / receiptAmount * 100],
    guarded against [receiptAmount == 0], where any nonzero invoice is a
    [Mismatch] (the percentage the result then carries is not specified and
    is set to 0).  Verdict: [Matched] if [variance == 0]; [WithinTolerance]
    if [variancePercent <= tolerancePercent]; otherwise [Mismatch]. *)
Definition match_ (order : Order) (receipt : Receipt) (invoice : Invoice) (tolerance : Q)
  : MatchResult :=
  let received := receiptAmount receipt in
  let v := invoiceAmount invoice - received in
  let pct := if Qeq_bool received 0 then 0 else Qabs v / received * 100 in
  let verd :=
    if Qeq_bool v 0 then Matched
    else if Qeq_bool received 0 then Mismatch
    else if Qle_bool pct tolerance then WithinTolerance
    else Mismatch in
  mkMatchResult (orderId order) (receiptId receipt) (invoiceId invoice)
    (poAmount order) received (invoiceAmount invoice) v pct verd tolerance.

End Reconciliation.

(* ===================================================================== *)
(** ** Budget control service: reservation by business key                 *)
(* ===================================================================== *)

(** The sources declare a reservation by request,
    [reserveBudget(UUID requestId, BigDecimal amount)], with a body of four
    comments (lock budget row, check availability, create reservation,
    update budget amounts), and the entity [BudgetReservation] whose column
    [purchase_request_id] is unique; the function that looks a reservation
    up by its key is not among them.  (The listing embedded in
    [BudgetServicePlan] takes a department and an amount only.) *)
Module BudgetControl.

Inductive AccountStatus : Type := Active | Suspended | Closed.

Inductive ReservationState : Type :=
  Reserved | Confirmed | PartiallySpent | Spent | Released | Cancelled.

Inductive TransactionType : Type := Allocate | Reserve | Release | Spend | TopUp | Adjust.

(** A ledger account is identified by (department identifier, fiscal
    period). *)
Definition AccountId : Type := string * Z.

Record LedgerAccount : Type := mkLedgerAccount {
  totalAllocated : BigDecimal;
  spent : BigDecimal;
  reserved : BigDecimal;
  currency : string;
  status : AccountStatus
}.

(** A reservation: identified by the business key of the requester, unique
    per ledger account, and owned by the account it draws from. *)
Record Reservation : Type := mkReservation {
  businessKey : string;
  account : AccountId;
  amount : BigDecimal;
  state : ReservationState;
  expiry : option Z
}.

Record LedgerTransaction : Type := mkLedgerTransaction {
  accountId : AccountId;
  reservationId : option string;
  type : TransactionType;
  transactionAmount : BigDecimal;
  balanceBefore : BigDecimal;
  balanceAfter : BigDecimal;
  actor : string;
  timestamp : Z
}.

(** The ledger store: the account rows, the reservation rows (one per
    account and business key) and the transactions, oldest first. *)
Record LedgerStore : Type := mkLedgerStore {
  accounts : gmap AccountId LedgerAccount;
  reservations : gmap (AccountId * string) Reservation;
  transactions : list LedgerTransaction
}.

(** What [reserve] answers.  A reservation that exists already is given
    back as the result ([DuplicateReservationError] is no error to the
    caller: success with the existing result), so [Granted] carries the new
    reservation and the existing one alike.  The specification names no
    answer for an account that does not exist: [AccountMissing]. *)
Inductive ReserveResult : Type :=
| Granted (reservation : Reservation)
| InsufficientFundsError (available : BigDecimal)
| AccountMissing.

(** Modelled from the spec: [available = totalAllocated - spent - reserved],
    in exact decimal arithmetic. *)
Definition available (a : LedgerAccount) : BigDecimal :=
  BigDecimal.subtract (BigDecimal.subtract (totalAllocated a) (spent a)) (reserved a).

(** Modelled from the spec: a successful [reserve] increments [reserved] by
    the amount and leaves the other fields of the account as they are. *)
Definition incrementReserved (amount : BigDecimal) (a : LedgerAccount) : LedgerAccount :=
  mkLedgerAccount (totalAllocated a) (spent a) (BigDecimal.add (reserved a) amount)
    (currency a) (status a).

(** Modelled from the spec: [reserve(accountId, businessKey, amount, actor)],
    missing from the sources, by its contract.  Under the lock of the
    account row (one call running alone here) the balance is read and
    [available] computed.  If a reservation with the same business key
    exists already on the account it is returned unchanged and nothing is
    written; the existing reservation is looked up before the amounts are
    compared, since a second call must yield the reservation also when the
    first one has used up the funds.  If the available amount is below
    [amount], [InsufficientFundsError] carries the actual available amount
    and nothing is written.  On success [reserved] is incremented, the
    reservation row inserted in state [Reserved] (without expiry, which
    [reserve] is not given) and a transaction of type [Reserve] appended;
    its balances are the available amounts before and after, its time
    stamp the time [now] of the call.  The status of the account is not
    consulted: the contract names no answer of [reserve] for an account
    that is suspended or closed. *)
Definition reserve (accountId : AccountId) (businessKey : string) (amount : BigDecimal)
    (actor : string) (now : Z) (s : LedgerStore) : ReserveResult * LedgerStore :=
  match accounts s !! accountId with
  | None => (AccountMissing, s)
  | Some a =>
      match reservations s !! (accountId, businessKey) with
      | Some existing => (Granted existing, s)
      | None =>
          if BigDecimal.compareTo (available a) amount <? 0
          then (InsufficientFundsError (available a), s)
          else
            let a' := incrementReserved amount a in
            let r := mkReservation businessKey accountId amount Reserved None in
            let txn :=
              mkLedgerTransaction accountId (Some businessKey) Reserve amount
                (available a) (available a') actor now in
            (Granted r,
             mkLedgerStore (<[accountId := a']> (accounts s))
               (<[(accountId, businessKey) := r]> (reservations s))
               (transactions s ++ [txn]))
      end
  end.

End BudgetControl.

(* ===================================================================== *)
(** ** controller/BudgetController.java                                   *)
(* ===================================================================== *)

Module BudgetController.

(** [ResponseEntity<T>], by its status code and body. *)
Record ResponseEntity (T : Type) : Type := mkResponseEntity {
  getStatusCode : Z;
  getBody : T
}.

Arguments mkResponseEntity {T} _ _.
Arguments getStatusCode {T} _.
Arguments getBody {T} _.

(** [ResponseEntity.ok(body)] *)
Definition ok {T : Type} (body : T) : ResponseEntity T := mkResponseEntity 200 body.

(** [e instanceof RuntimeException]: of the exceptions of the service only
    Jackson's [JsonProcessingException] is a checked one. *)
Definition isRuntimeException (e : Throwable) : bool :=
  match e with
  | JsonProcessingException => false
  | _ => true
  end.

(** [try { body } catch (RuntimeException e) { handler }] *)
Definition tryCatchRuntime {S A : Type} (body : Eff S A) (handler : Throwable -> Eff S A)
  : Eff S A :=
  fun s =>
    match body s with
    | (Returned a, s') => (Returned a, s')
    | (Thrown e, s') => if isRuntimeException e then handler e s' else (Thrown e, s')
    end.

(** [getAvailableBudget(departmentId)], the handler of
    [GET /budgets/{departmentId}/available]. *)
Definition getAvailableBudget (env : KafkaEnv) (clock : Clock) (departmentId : string)
  : M (ResponseEntity BudgetAvailabilityResponse) :=
  log INFO "Received request for budget availability: {}";;
  tryCatchRuntime
    (response ← BudgetService.getAvailableBudget env clock departmentId;
     mret (ok response))
    (fun e =>
       log ERROR "Error fetching budget for department: {}";;
       throw e).

End BudgetController.

(* ===================================================================== *)
(** ** The API gateway (NestJS): values, exceptions and effects            *)
(* ===================================================================== *)

Module Js.

(** A JavaScript number, by the two observations the gateway makes of one:
    its text, and whether it is zero (the only falsy numbers [JSON.parse]
    can yield). *)
Record Number : Type := mkNumber {
  numberText : string;
  numberIsZero : bool
}.

#[local] Unset Elimination Schemes.

(** A value as [JSON.parse] yields it.  The members of an object are kept in
    the order of the text; of two members with the same name the later one
    is the property. *)
Inductive Json : Type :=
| JNull
| JBool (b : bool)
| JNumber (n : Number)
| JString (s : string)
| JArray (items : list Json)
| JObject (members : list (string * Json)).

#[local] Set Elimination Schemes.

(** [new HttpException(response, status)] *)
Record HttpException : Type := mkHttpException {
  getResponse : Json;
  getStatus : Z
}.

(** What a handler of the gateway can throw or catch: an [HttpException], or
    another error (a [TypeError], a rejected [fetch], a body that is not
    JSON), kept by its message. *)
Inductive Thrown : Type :=
| Http (e : HttpException)
| Error (message : string).

(** [error instanceof HttpException] *)
Definition instanceofHttpException (error : Thrown) : bool :=
  match error with
  | Http _ => true
  | Error _ => false
  end.

(** Asynchronous computations over a store [S], awaited one after the
    other: each resolves to a value or rejects, and may change the store. *)
Definition Async (S A : Type) : Type := S -> (Thrown + A) * S.

#[global] Instance Async_ret {S : Type} : MRet (Async S) :=
  fun A (a : A) (s : S) => (inr a, s).

#[global] Instance Async_bind {S : Type} : MBind (Async S) :=
  fun A B (f : A -> Async S B) (m : Async S A) (s : S) =>
    match m s with
    | (inr a, s') => f a s'
    | (inl e, s') => (inl e, s')
    end.

(** [throw error] *)
Definition throwJs {S A : Type} (error : Thrown) : Async S A := fun s => (inl error, s).

(** [try { body } catch (error) { handler }] *)
Definition tryCatchJs {S A : Type} (body : Async S A) (handler : Thrown -> Async S A)
  : Async S A :=
  fun s =>
    match body s with
    | (inr a, s') => (inr a, s')
    | (inl e, s') => handler e s'
    end.

(** Truthiness of a parsed value. *)
Definition truthy (v : Json) : bool :=
  match v with
  | JNull => false
  | JBool b => b
  | JNumber n => negb (numberIsZero n)
  | JString s => negb (String.eqb s "")
  | JArray _ => true
  | JObject _ => true
  end.

(** The property [name] among the members of an object. *)
Fixpoint member (name : string) (members : list (string * Json)) : option Json :=
  match members with
  | [] => None
  | (k, v) :: rest =>
      match member name rest with
      | Some later => Some later
      | None => if String.eqb k name then Some v else None
      end
  end.

(** [value.name] for a name that no prototype defines: a [TypeError] on
    [null], the property on an object that has it, [undefined] ([None])
    otherwise. *)
Definition getProperty {S : Type} (name : string) (value : Json) : Async S (option Json) :=
  match value with
  | JNull => throwJs (Error ("Cannot read properties of null (reading '" +:+ name +:+ "')"))
  | JObject members => mret (member name members)
  | _ => mret None
  end.

(** [value || fallback], for a [value] that may be [undefined]. *)
Definition orElse (value : option Json) (fallback : Json) : Json :=
  match value with
  | Some v => if truthy v then v else fallback
  | None => fallback
  end.

(** [configured || fallback] for a configuration string that may be
    [undefined]: the empty string is falsy too. *)
Definition orDefault (configured : option string) (fallback : string) : string :=
  match configured with
  | Some s => if String.eqb s "" then fallback else s
  | None => fallback
  end.

(** The response [fetch] resolves to, by what the handlers read of it;
    [json] is the outcome of [response.json()]: the message of the error it
    rejects with, or the parsed body. *)
Record Response : Type := mkResponse {
  ok : bool;
  status : Z;
  statusText : string;
  json : string + Json
}.

(** A call of [fetch]. *)
Record Request : Type := mkRequest {
  url : string;
  method : string;
  headers : list (string * string);
  body : option string
}.

(** What the handlers cannot decide: what [fetch] does with a request
    (reject with a message, or resolve to a response) and the text
    [JSON.stringify] gives for a value. *)
Record Net : Type := mkNet {
  fetch : Request -> string + Response;
  stringify : Json -> string
}.

(** [await fetch(...)] *)
Definition awaitFetch {S : Type} (net : Net) (request : Request) : Async S Response :=
  match fetch net request with
  | inr response => mret response
  | inl message => throwJs (Error message)
  end.

(** [await response.json()] *)
Definition awaitJson {S : Type} (response : Response) : Async S Json :=
  match json response with
  | inr value => mret value
  | inl message => throwJs (Error message)
  end.

(** What a handler writes with [console.error] or its [Logger]: the lines,
    oldest first, each kept as its first argument. *)
Definition Console : Type := list string.

(** [console.error(label, ...)], [logger.log(label)], [logger.error(label, ...)] *)
Definition writeLine (label : string) : Async Console unit :=
  fun console => (inr tt, console ++ [label]).

End Js.

(* ===================================================================== *)
(** ** api-gateway: budget/budget.controller.ts                            *)
(* ===================================================================== *)

Module GatewayBudgetController.

Import Js.

(** The field [budgetServiceUrl] the constructor sets from the
    configuration. *)
Definition budgetServiceUrl (config : string -> option string) : string :=
  orDefault (config "BUDGET_SERVICE_URL") "http://budget-service:8080".

(** [getAvailableBudget(departmentId)], the proxy of
    [GET /api/v1/budgets/{departmentId}/available]. *)
Definition getAvailableBudget (net : Net) (config : string -> option string)
    (departmentId : string) : Async Console Json :=
  tryCatchJs
    (response ← awaitFetch net
       (mkRequest
          (budgetServiceUrl config +:+ "/api/v1/budgets/" +:+ departmentId +:+ "/available")
          "GET" [] None);
     if negb (ok response)
     then throwJs (Http (mkHttpException
                           (JString ("Budget service error: " +:+ statusText response))
                           (status response)))
     else
       data ← awaitJson response;
       mret data)
    (fun error =>
       writeLine "Error calling Budget Service:";;
       if instanceofHttpException error
       then throwJs error
       else throwJs (Http (mkHttpException (JString "Failed to fetch budget information") 503))).

End GatewayBudgetController.

(* ===================================================================== *)
(** ** api-gateway: request/request.controller.ts                          *)
(* ===================================================================== *)

Module RequestController.

Import Js.

(** The field [requestServiceUrl] the constructor sets from the
    configuration. *)
Definition requestServiceUrl (config : string -> option string) : string :=
  orDefault (config "REQUEST_SERVICE_URL") "http://request-service:3001".

(** [await response.json().catch(() => ({ message: response.statusText }))] *)
Definition errorBody (response : Response) : Json :=
  match json response with
  | inr value => value
  | inl _ => JObject [("message", JString (statusText response))]
  end.

(** [createRequest(body)], the proxy of [POST /api/v1/requests]. *)
Definition createRequest (net : Net) (config : string -> option string) (requestBody : Json)
  : Async Console Json :=
  tryCatchJs
    (writeLine "Proxying request creation to Request Service";;
     response ← awaitFetch net
       (mkRequest (requestServiceUrl config +:+ "/api/v1/requests") "POST"
          [("Content-Type", "application/json")]
          (Some (stringify net requestBody)));
     if negb (ok response)
     then
       let error := errorBody response in
       message ← getProperty "message" error;
       throwJs (Http (mkHttpException
                        (orElse message (JString "Request service error"))
                        (status response)))
     else
       data ← awaitJson response;
       mret data)
    (fun error =>
       writeLine "Error calling Request Service:";;
       if instanceofHttpException error
       then throwJs error
       else throwJs (Http (mkHttpException (JString "Failed to create purchase request") 503))).

End RequestController.


(* ===================================================================== *)
(** ** api-gateway: kafka/kafka.service.ts                                 *)
(* ===================================================================== *)

Module KafkaService.

Import Js.

(** Levels of the NestJS [Logger]. *)
Inductive LogLevel : Type := LOG | WARN | ERR.

(** A message handed to [producer.send]. *)
Record Message : Type := mkMessage {
  key : Json;
  value : string;
  timestamp : string
}.

(** The configuration [new Kafka({...})] is given. *)
Record ClientConfig : Type := mkClientConfig {
  clientId : string;
  brokers : list string;
  initialRetryTime : Z;
  retries : Z
}.

(** The fields of the service, the messages the broker has taken (topic and
    message, oldest first) and the lines of the logger (oldest first).  A
    producer or consumer that has been created is [Some connected]. *)
Record State : Type := mkState {
  kafka : option ClientConfig;
  producer : option bool;
  consumer : option (string * bool);
  isConnected : bool;
  sent : list (string * Message);
  logged : list (LogLevel * string)
}.

(** The service as constructed: [isConnected = false], nothing created. *)
Definition fresh : State := mkState None None None false [] [].

(** What the service cannot decide: whether kafkajs connects and
    disconnects the producer and the consumer, whether the broker takes a
    message, the text [JSON.stringify] gives for an event, and the two
    readings [Date.now().toString()] of the clock during one
    [publishEvent]. *)
Record Kafkajs : Type := mkKafkajs {
  producerConnects : bool;
  consumerConnects : bool;
  producerDisconnects : bool;
  consumerDisconnects : bool;
  sendSucceeds : string -> Message -> bool;
  stringifyEvent : Json -> string;
  nowForKey : string;
  nowForTimestamp : string
}.

(** [text.split(',')] *)
Fixpoint split (text : string) : list string :=
  match text with
  | EmptyString => [""]
  | String c rest =>
      if Ascii.eqb c (Ascii.ascii_of_nat 44)
      then "" :: split rest
      else match split rest with
           | piece :: pieces => String c piece :: pieces
           | [] => [String c ""]
           end
  end.

(** [pieces.join(',')] *)
Fixpoint join (pieces : list string) : string :=
  match pieces with
  | [] => ""
  | [piece] => piece
  | piece :: rest => piece +:+ "," +:+ join rest
  end.

(** The client configuration [onModuleInit] builds from [process.env]. *)
Definition clientConfig (processEnv : string -> option string) : ClientConfig :=
  mkClientConfig
    (orDefault (processEnv "KAFKA_CLIENT_ID") "api-gateway")
    (split (orDefault (processEnv "KAFKA_BROKERS") "localhost:9092"))
    300 10.

Definition setKafka (c : ClientConfig) : Async State unit :=
  fun s => (inr tt, mkState (Some c) (producer s) (consumer s) (isConnected s) (sent s) (logged s)).

Definition setProducer (p : option bool) : Async State unit :=
  fun s => (inr tt, mkState (kafka s) p (consumer s) (isConnected s) (sent s) (logged s)).

Definition setConsumer (c : option (string * bool)) : Async State unit :=
  fun s => (inr tt, mkState (kafka s) (producer s) c (isConnected s) (sent s) (logged s)).

Definition setIsConnected (b : bool) : Async State unit :=
  fun s => (inr tt, mkState (kafka s) (producer s) (consumer s) b (sent s) (logged s)).

(** [this.logger.log], [this.logger.warn], [this.logger.error]: one line,
    kept as its level and first argument. *)
Definition logger (level : LogLevel) (line : string) : Async State unit :=
  fun s =>
    (inr tt,
     mkState (kafka s) (producer s) (consumer s) (isConnected s) (sent s)
       (logged s ++ [(level, line)])).

(** [await this.producer.connect()] *)
Definition producerConnect (lib : Kafkajs) : Async State unit :=
  if producerConnects lib then setProducer (Some true)
  else throwJs (Error "producer connection failed").

(** [await this.consumer.connect()] *)
Definition consumerConnect (lib : Kafkajs) (groupId : string) : Async State unit :=
  if consumerConnects lib then setConsumer (Some (groupId, true))
  else throwJs (Error "consumer connection failed").

(** [onModuleInit()] *)
Definition onModuleInit (lib : Kafkajs) (processEnv : string -> option string)
  : Async State unit :=
  tryCatchJs
    ((* Initialize Kafka client *)
     setKafka (clientConfig processEnv);;
     (* Create producer *)
     setProducer (Some false);;
     producerConnect lib;;
     setIsConnected true;;
     logger LOG "✅ Kafka producer connected successfully";;
     (* Create consumer (for future use) *)
     let groupId := orDefault (processEnv "KAFKA_GROUP_ID") "api-gateway-group" in
     setConsumer (Some (groupId, false));;
     consumerConnect lib groupId;;
     logger LOG "✅ Kafka consumer connected successfully")
    (fun error =>
       logger ERR "❌ Failed to connect to Kafka";;
       setIsConnected false).

(** [await this.producer.send({ topic, messages: [message] })]: a
    [TypeError] without a producer; kafkajs rejects on a producer that is
    not connected, and when the broker does not take the message. *)
Definition producerSend (lib : Kafkajs) (topic : string) (message : Message)
  : Async State unit :=
  fun s =>
    match producer s with
    | None => (inl (Error "Cannot read properties of undefined (reading 'send')"), s)
    | Some false => (inl (Error "The producer is disconnected"), s)
    | Some true =>
        if sendSucceeds lib topic message
        then (inr tt,
              mkState (kafka s) (producer s) (consumer s) (isConnected s)
                (sent s ++ [(topic, message)]) (logged s))
        else (inl (Error "send failed"), s)
    end.

(** [publishEvent(topic, event)] *)
Definition publishEvent (lib : Kafkajs) (topic : string) (event : Json) : Async State unit :=
  tryCatchJs
    (fun s =>
       if negb (isConnected s)
       then logger WARN ("Kafka not connected. Skipping event: " +:+ topic) s
       else
         (id ← getProperty "id" event;
          producerSend lib topic
            (mkMessage (orElse id (JString (nowForKey lib)))
               (stringifyEvent lib event)
               (nowForTimestamp lib));;
          logger LOG ("📤 Event published to topic: " +:+ topic)) s)
    (fun error =>
       logger ERR ("Failed to publish event to " +:+ topic);;
       throwJs error).

(** [checkConnection()] *)
Definition checkConnection : Async State bool :=
  fun s => (inr (isConnected s), s).

(** [await this.producer.disconnect()] *)
Definition producerDisconnect (lib : Kafkajs) : Async State unit :=
  if producerDisconnects lib then setProducer (Some false)
  else throwJs (Error "producer disconnection failed").

(** [await this.consumer.disconnect()] *)
Definition consumerDisconnect (lib : Kafkajs) (groupId : string) : Async State unit :=
  if consumerDisconnects lib then setConsumer (Some (groupId, false))
  else throwJs (Error "consumer disconnection failed").

(** [onModuleDestroy()] *)
Definition onModuleDestroy (lib : Kafkajs) : Async State unit :=
  tryCatchJs
    (fun s =>
       ((match producer s with
         | Some _ => producerDisconnect lib
         | None => mret tt
         end);;
        (fun s' =>
           match consumer s' with
           | Some (groupId, _) => consumerDisconnect lib groupId s'
           | None => (inr tt, s')
           end);;
        logger LOG "Kafka connections closed") s)
    (fun error => logger ERR "Error closing Kafka connections").

End KafkaService.

(* ===================================================================== *)
(** ** api-gateway: health/health.controller.ts                            *)
(* ===================================================================== *)

Module HealthController.

Import Js.

(** The body [getHealth] answers with. *)
Record Health : Type := mkHealth {
  healthStatus : string;
  service : string;
  timestamp : string;
  uptime : Number;
  kafkaDependency : string;
  environment : string
}.

(** What the handler reads of the process: [new Date().toISOString()],
    [process.uptime()] and [process.env.NODE_ENV]. *)
Record Process : Type := mkProcess {
  isoNow : string;
  processUptime : Number;
  nodeEnv : option string
}.

(** [getHealth()] *)
Definition getHealth (process : Process) : Async KafkaService.State Health :=
  kafkaStatus ← KafkaService.checkConnection;
  mret (mkHealth "healthy" "api-gateway" (isoNow process) (processUptime process)
          (if kafkaStatus : bool then "connected" else "disconnected")
          (orDefault (nodeEnv process) "development")).

End HealthController.


(* ===================================================================== *)
(** ** user-service: entities, database and producer                       *)
(* ===================================================================== *)

Module UserDirectory.

Import Js.

(** [entities/user.entity.ts]: the columns of a row of [users].  Dates are
    kept as their ISO text. *)
Record User : Type := mkUser {
  id : string;
  email : string;
  first_name : string;
  last_name : string;
  employee_id : option string;
  department_id : option string;
  job_title : option string;
  phone : option string;
  is_active : bool;
  created_at : string;
  updated_at : string
}.

#[global] Instance User_eq_dec : EqDecision User.
Proof. solve_decision. Defined.

(** [entities/department.entity.ts]: the columns of a row of
    [departments]. *)
Record DepartmentEntity : Type := mkDepartmentEntity {
  departmentEntityId : string;
  departmentEntityName : string;
  code : string;
  parent_id : option string;
  manager_id : option string;
  description : option string;
  cost_center : option string;
  departmentIsActive : bool;
  created_by : string;
  departmentCreatedAt : string;
  updated_by : option string;
  departmentUpdatedAt : string
}.

(** A user as [findOne] loads it with [relations: ['department']]. *)
Record LoadedUser : Type := mkLoadedUser {
  entity : User;
  department : option DepartmentEntity
}.

(** A record handed to the Kafka producer. *)
Record Produced : Type := mkProduced {
  topic : string;
  key : string;
  value : string
}.

(** What the user service can touch: the two tables, by primary key, the
    records the broker has taken (oldest first) and the console (oldest
    first, each line kept as its first argument). *)
Record Store : Type := mkStore {
  users : gmap string User;
  departmentRows : gmap string DepartmentEntity;
  produced : list Produced;
  consoleOut : list string
}.

(** What the user service cannot decide: whether the database rejects a
    query by identifier (an identifier that is no UUID, a lost connection)
    or a save (a constraint), whether TypeORM issues the update for an
    entity whose columns are those of the stored row (it has been seen to:
    the update date of a user saved unchanged moves), the time of the
    database, whether the broker takes a record, the text [JSON.stringify]
    gives, and the readings [new Date().toISOString()] in the service and
    in the producer. *)
Record Outside : Type := mkOutside {
  findRejects : string -> bool;
  saveRejects : User -> bool;
  updatesUnchanged : User -> bool;
  databaseNow : string;
  brokerTakes : Produced -> bool;
  stringifyValue : Json -> string;
  serviceNow : string;
  producerNow : string
}.

(** [user.is_active = active] *)
Definition setActive (active : bool) (u : User) : User :=
  mkUser (id u) (email u) (first_name u) (last_name u) (employee_id u) (department_id u)
    (job_title u) (phone u) active (created_at u) (updated_at u).

(** The [@UpdateDateColumn] of an update. *)
Definition touch (now : string) (u : User) : User :=
  mkUser (id u) (email u) (first_name u) (last_name u) (employee_id u) (department_id u)
    (job_title u) (phone u) (is_active u) (created_at u) now.

(** [userRepository.findOne({ where: { id }, relations: ['department'] })]:
    the row with that primary key and the department its foreign key names,
    or [null]. *)
Definition findOneById (out : Outside) (userId : string) : Async Store (option LoadedUser) :=
  fun s =>
    if findRejects out userId
    then (inl (Error "QueryFailedError"), s)
    else (inr (match users s !! userId with
               | Some u => Some (mkLoadedUser u (department_id u ≫= (departmentRows s !!.)))
               | None => None
               end),
          s).

(** [userRepository.save(user)] for a loaded user: the row is written and
    its update date set by the database; for a user equal to its stored row
    the update is issued or not as TypeORM decides. *)
Definition save (out : Outside) (user : LoadedUser) : Async Store LoadedUser :=
  fun s =>
    if saveRejects out (entity user)
    then (inl (Error "QueryFailedError"), s)
    else
      let written := touch (databaseNow out) (entity user) in
      let saved :=
        (inr (mkLoadedUser written (department user)),
         mkStore (<[id written := written]> (users s)) (departmentRows s)
           (produced s) (consoleOut s)) in
      match users s !! id (entity user) with
      | Some stored =>
          if bool_decide (stored = entity user) && negb (updatesUnchanged out (entity user))
          then (inr user, s)
          else saved
      | None => saved
      end.

(** [console.log], [console.error] *)
Definition consoleLine (label : string) : Async Store unit :=
  fun s => (inr tt, mkStore (users s) (departmentRows s) (produced s) (consoleOut s ++ [label])).

End UserDirectory.

(* ===================================================================== *)
(** ** user-service: kafka/kafka-producer.service.ts                       *)
(* ===================================================================== *)

Module UserKafkaProducer.

Import Js UserDirectory.

(** [await this.producer.send({ topic, messages: [{ key, value }] })] *)
Definition producerSend (out : Outside) (record : Produced) : Async Store unit :=
  fun s =>
    if brokerTakes out record
    then (inr tt,
          mkStore (users s) (departmentRows s) (produced s ++ [record]) (consoleOut s))
    else (inl (Error "send failed"), s).

(** [publishEvent(eventType, data)] *)
Definition publishEvent (out : Outside) (eventType : string) (data : Json) : Async Store unit :=
  tryCatchJs
    (producerSend out
       (mkProduced "procurement.events" eventType
          (stringifyValue out
             (JObject [("eventType", JString eventType);
                       ("data", data);
                       ("service", JString "user-service");
                       ("timestamp", JString (producerNow out))])));;
     consoleLine ("📤 Event published: " +:+ eventType))
    (fun error => consoleLine "Failed to publish event:").

End UserKafkaProducer.

(* ===================================================================== *)
(** ** user-service: services/user.service.ts                              *)
(* ===================================================================== *)

Module UserService.

Import Js UserDirectory.

(** [new NotFoundException(message)]: the [HttpException] of status 404
    whose response is the object
    [{ message, error: 'Not Found', statusCode: 404 }]. *)
Definition NotFoundException (message : string) : Thrown :=
  Http (mkHttpException
          (JObject [("message", JString message);
                    ("error", JString "Not Found");
                    ("statusCode", JNumber (mkNumber "404" false))])
          404).

(** [findOne(id)] *)
Definition findOne (out : Outside) (userId : string) : Async Store LoadedUser :=
  user ← findOneById out userId;
  match user with
  | None => throwJs (NotFoundException ("User with ID " +:+ userId +:+ " not found"))
  | Some found => mret found
  end.

(** [remove(id)]; the object it answers with is kept as its [message]. *)
Definition remove (out : Outside) (userId : string) : Async Store string :=
  user ← findOne out userId;
  let user := mkLoadedUser (setActive false (entity user)) (department user) in
  save out user;;
  (* Publish event to Kafka *)
  UserKafkaProducer.publishEvent out "user.deleted"
    (JObject [("user_id", JString userId); ("timestamp", JString (serviceNow out))]);;
  mret "User deactivated successfully".

End UserService.


(* ===================================================================== *)
(** ** The ledger invariant and the worlds the service reaches             *)
(* ===================================================================== *)

(** [spent + reserved <= totalAllocated] for one row. *)
Definition withinBudget (d : Department) : Prop :=
  (BigDecimal.value (Department.usedBudget d)
   + BigDecimal.value (Department.reservedBudget d)
   <= BigDecimal.value (Department.totalBudget d))%Q.


(** The worlds reached from [w] by calls of the only operation the service
    exposes, with any department identifier, at any time and whatever the
    broker does. *)
Inductive reaches (w : World) : World -> Prop :=
| reaches_start : reaches w w
| reaches_query (w' : World) (env : KafkaEnv) (clock : Clock) (departmentId : string) :
    reaches w w' ->
    reaches w (snd (BudgetService.getAvailableBudget env clock departmentId w')).

(** [available], as the planned [reserveBudget] computes it under the lock. *)
Definition availableOf (b : BudgetServicePlan.DepartmentBudget) : BigDecimal :=
  BigDecimal.subtract
    (BigDecimal.subtract (BudgetServicePlan.getTotalAmount b) (BudgetServicePlan.getSpentAmount b))
    (BudgetServicePlan.getReservedAmount b).

(** The row the planned [reserveBudget] saves on success. *)
Definition reservedRow (amount : BigDecimal) (b : BudgetServicePlan.DepartmentBudget)
  : BudgetServicePlan.DepartmentBudget :=
  BudgetServicePlan.setReservedAmount
    (BigDecimal.add (BudgetServicePlan.getReservedAmount b) amount) b.

(** The row [getAvailableBudget] selects at the time of [clock]. *)
Definition selected (clock : Clock) (departmentId : string) (w : World) : option Department :=
  List.find
    (fun d => bool_decide (Department.id d = departmentId)
              && (Department.fiscalYear d =? getYear (nowAtLookup clock)))
    (departments w).

(** A call ended by throwing. *)
Definition threw {A : Type} (o : Outcome A) : Prop :=
  match o with
  | Thrown _ => True
  | Returned _ => False
  end.

(** The same invariant for a row of the planned budget table. *)
Definition planWithinBudget (b : BudgetServicePlan.DepartmentBudget) : Prop :=
  (BigDecimal.value (BudgetServicePlan.getSpentAmount b)
   + BigDecimal.value (BudgetServicePlan.getReservedAmount b)
   <= BigDecimal.value (BudgetServicePlan.getTotalAmount b))%Q.

(* ===================================================================== *)
(** ** Sample data                                                        *)
(* ===================================================================== *)

Module Sample.

(** An amount with two decimals, from its number of cents. *)
Definition money (cents : Z) : BigDecimal := BigDecimal.mk cents 2.

Definition march2026 : LocalDateTime := mkLocalDateTime 2026 "2026-03-01T09:00:00".

Definition clock2026 : Clock := mkClock march2026 march2026.

(** A department with 10000.00 allocated, 2000.00 used and 3000.00 reserved. *)
Definition operations : Department :=
  Department.mk "D1" "Operations" (money 1000000) (money 200000) (money 300000)
    2026 (Some "USD") march2026 None.

(** A department whose budget is used up exactly: 100.00 = 60.00 + 40.00. *)
Definition drained : Department :=
  Department.mk "D2" "Facilities" (money 10000) (money 6000) (money 4000)
    2026 (Some "USD") march2026 None.

(** A department with 100.00 allocated and nothing used or reserved. *)
Definition small : Department :=
  Department.mk "D3" "Library" (money 10000) (money 0) (money 0)
    2026 (Some "USD") march2026 None.

Definition world0 : World := mkWorld [operations; drained; small] [] [].

(** A broker that accepts every record, and one that refuses every record. *)
Definition brokerUp : KafkaEnv := mkKafkaEnv (fun _ => Some "{}") (fun _ _ => true).
Definition brokerDown : KafkaEnv := mkKafkaEnv (fun _ => Some "{}") (fun _ _ => false).

(** A planned budget row with 10000.00 allocated, nothing spent or reserved,
    and the ledger that holds it. *)
Definition planned : BudgetServicePlan.DepartmentBudget :=
  BudgetServicePlan.mkDepartmentBudget "B1" "D1" (money 1000000) (money 0) (money 0).

Definition ledger0 : BudgetServicePlan.Ledger :=
  BudgetServicePlan.mkLedger {[ "D1" := planned ]} [].

(** An operation with a visible side effect: it counts the requests it has
    processed and answers with the payload and its sequence number. *)
Definition countingProcess (dto : string) : Eff nat (string * nat) :=
  fun n => (Returned (dto, n), S n).

(** A store with no idempotency key and no request processed yet. *)
Definition store0 : PurchaseRequestService.Store (string * nat) nat :=
  PurchaseRequestService.mkStore ∅ 0%nat.

End Sample.

(* ===================================================================== *)
(** ** The audit trail of the availability query                           *)
(* ===================================================================== *)

(** What [KafkaProducerService.sendEvent] hands over to [KafkaTemplate]:
    the serialised event on its topic when Jackson serialises it and the
    call of [send] accepts it, nothing otherwise. *)
Definition handedOver (env : KafkaEnv) (topic : string) (event : gmap string Obj)
  : list (string * string) :=
  match writeValueAsString env event with
  | Some json => if sendAccepted env topic json then [(topic, json)] else []
  | None => []
  end.

(** What one availability query hands over to [KafkaTemplate]. *)
Definition audited (env : KafkaEnv) (clock : Clock) (departmentId : string) (w : World)
  : list (string * string) :=
  match selected clock departmentId w with
  | Some d =>
      handedOver env "budget.events"
        (BudgetService.budgetQueriedEvent (nowAtPublish clock) departmentId
           (BudgetAvailabilityResponse.from d))
  | None => []
  end.

(** A copy of a department row whose three amounts are written with other
    scales. *)
Definition rescaled (total used reserved : BigDecimal) (d : Department) : Department :=
  Department.setReservedBudget reserved
    (Department.setUsedBudget used (Department.setTotalBudget total d)).


(* ===================================================================== *)
(** ** Sample data for the gateway                                        *)
(* ===================================================================== *)

Module GatewaySample.

(** No configuration: every key is undefined. *)
Definition noConfig : string -> option string := fun _ => None.

(** An upstream that answers every request with status 422 and the JSON
    body [null]. *)
Definition refusesWithNull : Js.Net :=
  Js.mkNet
    (fun _ => inr (Js.mkResponse false 422 "Unprocessable Entity" (inr Js.JNull)))
    (fun _ => "{}").

(** An upstream that answers every request with status 404 and a JSON
    object with a message. *)
Definition refusesWithMessage : Js.Net :=
  Js.mkNet
    (fun _ => inr (Js.mkResponse false 404 "Not Found"
                     (inr (Js.JObject [("message", Js.JString "No such department")]))))
    (fun _ => "{}").

(** An upstream that cannot be reached. *)
Definition unreachable : Js.Net :=
  Js.mkNet (fun _ => inl "fetch failed") (fun _ => "{}").

End GatewaySample.


(* ===================================================================== *)
(** ** The states of the gateway's Kafka service                           *)
(* ===================================================================== *)

(** The states the Kafka service of the gateway reaches from its
    construction by [onModuleInit] and [publishEvent], whatever kafkajs and
    the broker do at each call. *)
Inductive kafkaReaches : KafkaService.State -> Prop :=
| kafkaReaches_fresh : kafkaReaches KafkaService.fresh
| kafkaReaches_init (s : KafkaService.State) (lib : KafkaService.Kafkajs)
    (processEnv : string -> option string) :
    kafkaReaches s ->
    kafkaReaches (snd (KafkaService.onModuleInit lib processEnv s))
| kafkaReaches_publish (s : KafkaService.State) (lib : KafkaService.Kafkajs)
    (topic : string) (event : Js.Json) :
    kafkaReaches s ->
    kafkaReaches (snd (KafkaService.publishEvent lib topic event s)).

(** Both clients of the service are connected. *)
Definition bothConnected (s : KafkaService.State) : Prop :=
  KafkaService.producer s = Some true
  /\ exists groupId, KafkaService.consumer s = Some (groupId, true).

(** The message [publishEvent] builds for an event that has the property
    [id] (or not). *)
Definition messageFor (lib : KafkaService.Kafkajs) (event : Js.Json) (id : option Js.Json)
  : KafkaService.Message :=
  KafkaService.mkMessage (Js.orElse id (Js.JString (KafkaService.nowForKey lib)))
    (KafkaService.stringifyEvent lib event) (KafkaService.nowForTimestamp lib).

(** [event.id], when reading it does not throw. *)
Definition idOf (event : Js.Json) : option Js.Json :=
  match event with
  | Js.JObject members => Js.member "id" members
  | _ => None
  end.

(** A character occurs in a string. *)
Fixpoint occurs (c : Ascii.ascii) (text : string) : bool :=
  match text with
  | EmptyString => false
  | String c' rest => Ascii.eqb c' c || occurs c rest
  end.

Module KafkaSample.

(** kafkajs with a producer that connects and a consumer that does not. *)
Definition consumerDown : KafkaService.Kafkajs :=
  KafkaService.mkKafkajs true false true true (fun _ _ => true) (fun _ => "{}")
    "1767225600000" "1767225600001".

(** kafkajs with everything working. *)
Definition allUp : KafkaService.Kafkajs :=
  KafkaService.mkKafkajs true true true true (fun _ _ => true) (fun _ => "{}")
    "1767225600000" "1767225600001".

Definition noEnv : string -> option string := fun _ => None.

Definition someEnv : string -> option string :=
  fun k => if String.eqb k "KAFKA_BROKERS" then Some "kafka-1:9092,kafka-2:9092" else None.

End KafkaSample.


(* ===================================================================== *)
(** ** Sample data for the user service                                   *)
(* ===================================================================== *)

Module UserSample.

Definition ada : UserDirectory.User :=
  UserDirectory.mkUser "7f9c24e8-3b1a-4f6e-9d2b-5a8c1e0f4b33" "ada@example.com" "Ada"
    "Lovelace" (Some "E-1") None (Some "Engineer") None true
    "2026-01-05T08:00:00.000Z" "2026-01-05T08:00:00.000Z".

Definition store0 : UserDirectory.Store :=
  UserDirectory.mkStore {[ UserDirectory.id ada := ada ]} ∅ [] [].

(** A database and a broker that accept everything. *)
Definition calm : UserDirectory.Outside :=
  UserDirectory.mkOutside (fun _ => false) (fun _ => false) (fun _ => true)
    "2026-03-01T09:00:00.000Z"
    (fun _ => true) (fun _ => "{}") "2026-03-01T09:00:00.100Z" "2026-03-01T09:00:00.200Z".

End UserSample.


(* ===================================================================== *)
(** ** Sequences of planned reservations                                   *)
(* ===================================================================== *)

(** The calls of [requests], each a department identifier and an amount,
    made one after the other on the planned [reserveBudget]; the outcomes
    are returned in the order of the calls. *)
Fixpoint reserveAll (requests : list (string * BigDecimal)) (l : BudgetServicePlan.Ledger)
  : list (Outcome BudgetServicePlan.ReservationResult) * BudgetServicePlan.Ledger :=
  match requests with
  | [] => ([], l)
  | (departmentId, amount) :: rest =>
      match BudgetServicePlan.reserveBudget departmentId amount l with
      | (o, l') =>
          match reserveAll rest l' with
          | (os, l'') => (o :: os, l'')
          end
      end
  end.

(** A call that answered success. *)
Definition succeeded (o : Outcome BudgetServicePlan.ReservationResult) : bool :=
  match o with
  | Returned BudgetServicePlan.success => true
  | _ => false
  end.

(** Every row of the planned budget table is stored under its department
    identifier and is within its budget. *)
Definition ledgerOk (l : BudgetServicePlan.Ledger) : Prop :=
  forall k b,
    BudgetServicePlan.budgets l !! k = Some b ->
    BudgetServicePlan.getDepartmentId b = k /\ planWithinBudget b.

Module PlanSample.

(** An operation that fails on the payload [broken] and counts every run. *)
Definition fragileProcess (dto : string) : Eff nat (string * nat) :=
  fun n =>
    if String.eqb dto "broken"
    then (Thrown (RuntimeException "cannot process"), S n)
    else (Returned (dto, n), S n).

End PlanSample.

(* ===================================================================== *)
(** ** Sample data for the budget control service                          *)
(* ===================================================================== *)

Module ControlSample.

(** The account of department D1 for 2026: 10000.00 allocated, nothing
    spent or reserved. *)
Definition d1 : BudgetControl.AccountId := ("D1", 2026).

Definition allocated : BudgetControl.LedgerAccount :=
  BudgetControl.mkLedgerAccount (Sample.money 1000000) (Sample.money 0) (Sample.money 0)
    "USD" BudgetControl.Active.

Definition store0 : BudgetControl.LedgerStore :=
  BudgetControl.mkLedgerStore {[ d1 := allocated ]} ∅ [].

(** The reservation of 8000.00 for the requisition R1. *)
Definition r1 : BudgetControl.Reservation :=
  BudgetControl.mkReservation "R1" d1 (Sample.money 800000) BudgetControl.Reserved None.

End ControlSample.


(* ===================================================================== *)
(** * Lemmas and theorems                                                  *)
(* ===================================================================== *)

(** ** Exactness of [BigDecimal] arithmetic *)
Module BigDecimalFacts.

Import BigDecimal.
Local Open Scope Q_scope.

Lemma ten_nonzero : ~ inject_Z 10 == 0.
Proof. discriminate. Qed.

Lemma pow10_pos (z : Z) : 0 < inject_Z 10 ^ z.
Proof. apply Qpower_0_lt. reflexivity. Qed.

Lemma pow10_cancel (s : Z) : inject_Z 10 ^ s * inject_Z 10 ^ (- s) == 1.
Proof.
  rewrite <- Qpower_plus by apply ten_nonzero.
  now rewrite Z.add_opp_diag_r.
Qed.

(** Aligning to a larger scale multiplies the unscaled value by the power
    of ten that separates the scales: nothing is rounded. *)
Lemma aligned_value (s : Z) (b : t) :
  (scale b <= s)%Z -> inject_Z (aligned s b) == value b * inject_Z 10 ^ s.
Proof.
  intros Hs. unfold aligned, value.
  rewrite inject_Z_mult, Zpower_Qpower by lia.
  replace (s - scale b)%Z with (s + - scale b)%Z by lia.
  rewrite Qpower_plus by apply ten_nonzero.
  ring.
Qed.

Lemma value_mk_aligned (x : Z) (s : Z) (v : Q) :
  inject_Z x == v * inject_Z 10 ^ s -> value (mk x s) == v.
Proof.
  intros Hx. unfold value; simpl. rewrite Hx.
  rewrite <- Qmult_assoc, pow10_cancel. ring.
Qed.

Lemma value_subtract (a b : t) : value (subtract a b) == value a - value b.
Proof.
  unfold subtract. apply value_mk_aligned.
  unfold Zminus. rewrite inject_Z_plus, inject_Z_opp.
  rewrite !aligned_value by lia. ring.
Qed.

Lemma value_add (a b : t) : value (add a b) == value a + value b.
Proof.
  unfold add. apply value_mk_aligned.
  rewrite inject_Z_plus, !aligned_value by lia. ring.
Qed.

Lemma scale_subtract (a b : t) : scale (subtract a b) = Z.max (scale a) (scale b).
Proof. reflexivity. Qed.

Lemma value_ZERO : value ZERO == 0.
Proof. reflexivity. Qed.

(** [compareTo] orders by the denoted numbers, whatever the scales. *)
Lemma compareTo_lt (a b : t) : (compareTo a b < 0)%Z <-> value a < value b.
Proof.
  unfold compareTo.
  set (s := Z.max (scale a) (scale b)).
  assert (Ha : inject_Z (aligned s a) == value a * inject_Z 10 ^ s)
    by (apply aligned_value; lia).
  assert (Hb : inject_Z (aligned s b) == value b * inject_Z 10 ^ s)
    by (apply aligned_value; lia).
  rewrite <- (Qmult_lt_r _ _ _ (pow10_pos s)), <- Ha, <- Hb, <- Zlt_Qlt.
  destruct (Z.compare_spec (aligned s a) (aligned s b)); lia.
Qed.

Lemma compareTo_gt (a b : t) : (0 < compareTo a b)%Z <-> value b < value a.
Proof.
  unfold compareTo.
  set (s := Z.max (scale a) (scale b)).
  assert (Ha : inject_Z (aligned s a) == value a * inject_Z 10 ^ s)
    by (apply aligned_value; lia).
  assert (Hb : inject_Z (aligned s b) == value b * inject_Z 10 ^ s)
    by (apply aligned_value; lia).
  rewrite <- (Qmult_lt_r _ _ _ (pow10_pos s)), <- Ha, <- Hb, <- Zlt_Qlt.
  destruct (Z.compare_spec (aligned s a) (aligned s b)); lia.
Qed.

Lemma compareTo_eq (a b : t) : compareTo a b = 0%Z <-> value a == value b.
Proof.
  unfold compareTo.
  set (s := Z.max (scale a) (scale b)).
  assert (Ha : inject_Z (aligned s a) == value a * inject_Z 10 ^ s)
    by (apply aligned_value; lia).
  assert (Hb : inject_Z (aligned s b) == value b * inject_Z 10 ^ s)
    by (apply aligned_value; lia).
  assert (Hnz : ~ inject_Z 10 ^ s == 0)
    by (intros E; pose proof (pow10_pos s) as P; rewrite E in P; discriminate P).
  rewrite <- (Qmult_inj_r _ _ _ Hnz), <- Ha, <- Hb, inject_Z_injective.
  destruct (Z.compare_spec (aligned s a) (aligned s b)); lia.
Qed.

End BigDecimalFacts.

(** ** The availability query of the running service *)
Module BudgetServiceFacts.

Import BudgetService.

Ltac run_eff :=
  unfold getAvailableBudget, publishBudgetQueryEvent, KafkaProducerService.sendEvent,
    KafkaProducerService.serialise, KafkaProducerService.send,
    DepartmentRepository.findByIdAndFiscalYear, tryCatch, throw, log,
    mbind, mret, Eff_bind, Eff_ret; simpl.

(** Publishing never throws and never touches the table. *)
Lemma publishBudgetQueryEvent_run env now departmentId response w :
  exists pubs logs,
    publishBudgetQueryEvent env now departmentId response w
    = (Returned tt, mkWorld (departments w) pubs logs).
Proof.
  run_eff.
  destruct (writeValueAsString env _) as [json|]; simpl.
  - destruct (sendAccepted env _ json); simpl; eauto.
  - eauto.
Qed.

(** One run of the query, by cases on the row selected. *)
Lemma getAvailableBudget_run env clock departmentId w :
  match selected clock departmentId w with
  | Some d =>
      exists pubs logs,
        getAvailableBudget env clock departmentId w
        = (Returned (BudgetAvailabilityResponse.from d), mkWorld (departments w) pubs logs)
  | None =>
      getAvailableBudget env clock departmentId w
      = (Thrown (RuntimeException ("Department not found: " +:+ departmentId)),
         mkWorld (departments w) (published w)
           ((logOut w ++ [(INFO, "Fetching budget availability for department: {}")])
                      ++ [(ERROR, "Department not found: {} for fiscal year: {}")]))
  end.
Proof.
  unfold selected.
  unfold getAvailableBudget, DepartmentRepository.findByIdAndFiscalYear, throw, log,
    mbind, mret, Eff_bind, Eff_ret; simpl.
  destruct (find _ (departments w)) as [d|]; simpl.
  - match goal with
    | |- context [publishBudgetQueryEvent ?e ?n ?i ?r ?w0] =>
        destruct (publishBudgetQueryEvent_run e n i r w0) as (pubs & logs & ->)
    end.
    simpl. eauto.
  - reflexivity.
Qed.

(** A row is selected exactly when the table holds a row with the
    identifier asked for and the fiscal year of the clock. *)
Lemma selected_Some clock departmentId w d :
  selected clock departmentId w = Some d ->
  In d (departments w)
  /\ Department.id d = departmentId
  /\ Department.fiscalYear d = getYear (nowAtLookup clock).
Proof.
  unfold selected. intros Hf.
  apply find_some in Hf as [Hin Hp].
  apply andb_prop in Hp as [Hid Hy].
  apply bool_decide_eq_true in Hid. apply Z.eqb_eq in Hy.
  auto.
Qed.

Lemma selected_None clock departmentId w :
  selected clock departmentId w = None <->
  (forall d, In d (departments w) ->
             Department.id d = departmentId ->
             Department.fiscalYear d = getYear (nowAtLookup clock) -> False).
Proof.
  unfold selected. split.
  - intros Hf d Hin Hid Hy.
    pose proof (find_none _ _ Hf d Hin) as Hp. simpl in Hp.
    apply andb_false_iff in Hp as [Hp|Hp].
    + apply bool_decide_eq_false in Hp. contradiction.
    + apply Z.eqb_neq in Hp. contradiction.
  - intros Hno.
    destruct (find _ (departments w)) as [d|] eqn:Hf; [|reflexivity].
    exfalso. destruct (selected_Some clock departmentId w d Hf) as (Hin & Hid & Hy).
    eauto.
Qed.

End BudgetServiceFacts.

(* ===================================================================== *)
(** ** Properties of the availability response                             *)
(* ===================================================================== *)

(** The number the available budget of a row denotes. *)
Lemma value_getAvailableBudget (d : Department) :
  (BigDecimal.value (Department.getAvailableBudget d)
   == BigDecimal.value (Department.totalBudget d)
      - BigDecimal.value (Department.usedBudget d)
      - BigDecimal.value (Department.reservedBudget d))%Q.
Proof.
  unfold Department.getAvailableBudget.
  now rewrite !BigDecimalFacts.value_subtract.
Qed.

(** C2: the available amount of the availability response is
    totalBudget - usedBudget - reservedBudget, exactly: it is the value of
    two [BigDecimal] subtractions, its denoted number is the difference of
    the three denoted numbers, and its scale is the largest of the three
    scales, so no digit is rounded away. *)
Theorem available_is_total_minus_used_minus_reserved (d : Department) :
  let r := BudgetAvailabilityResponse.from d in
  BudgetAvailabilityResponse.availableBudget r
  = BigDecimal.subtract
      (BigDecimal.subtract (Department.totalBudget d) (Department.usedBudget d))
      (Department.reservedBudget d)
  /\ (BigDecimal.value (BudgetAvailabilityResponse.availableBudget r)
      == BigDecimal.value (Department.totalBudget d)
         - BigDecimal.value (Department.usedBudget d)
         - BigDecimal.value (Department.reservedBudget d))%Q
  /\ BigDecimal.scale (BudgetAvailabilityResponse.availableBudget r)
     = Z.max (Z.max (BigDecimal.scale (Department.totalBudget d))
                    (BigDecimal.scale (Department.usedBudget d)))
             (BigDecimal.scale (Department.reservedBudget d)).
Proof.
  cbv zeta. split; [reflexivity|]. split.
  - unfold BudgetAvailabilityResponse.from; simpl.
    apply value_getAvailableBudget.
  - reflexivity.
Qed.

(** The status of a response can only be one of the two literals. *)
Lemma status_cases (d : Department) :
  let r := BudgetAvailabilityResponse.from d in
  (BudgetAvailabilityResponse.status r = "available"
   /\ 0 < BigDecimal.compareTo (BudgetAvailabilityResponse.availableBudget r) BigDecimal.ZERO)
  \/ (BudgetAvailabilityResponse.status r = "depleted"
      /\ BigDecimal.compareTo (BudgetAvailabilityResponse.availableBudget r) BigDecimal.ZERO <= 0).
Proof.
  cbv zeta. unfold BudgetAvailabilityResponse.from; simpl.
  destruct (Z.gtb_spec
              (BigDecimal.compareTo (Department.getAvailableBudget d) BigDecimal.ZERO) 0);
    [left|right]; split; auto; lia.
Qed.

(** The sign test of [from], read on the denoted number. *)
Lemma available_positive_iff (b : BigDecimal) :
  0 < BigDecimal.compareTo b BigDecimal.ZERO <-> (0 < BigDecimal.value b)%Q.
Proof.
  rewrite BigDecimalFacts.compareTo_gt.
  now rewrite BigDecimalFacts.value_ZERO.
Qed.

(** C10: the status of the availability response is the literal available
    exactly when total - used - reserved is strictly positive, and the
    literal depleted exactly when it is zero or negative; in particular a
    budget that is used up exactly is reported as depleted. *)
Theorem status_available_iff_positive (d : Department) :
  let r := BudgetAvailabilityResponse.from d in
  let available :=
    (BigDecimal.value (Department.totalBudget d)
     - BigDecimal.value (Department.usedBudget d)
     - BigDecimal.value (Department.reservedBudget d))%Q in
  (BudgetAvailabilityResponse.status r = "available" <-> (0 < available)%Q)
  /\ (BudgetAvailabilityResponse.status r = "depleted" <-> (available <= 0)%Q)
  /\ ((available == 0)%Q -> BudgetAvailabilityResponse.status r = "depleted").
Proof.
  cbv zeta.
  assert (Hv := value_getAvailableBudget d).
  change (Department.getAvailableBudget d)
    with (BudgetAvailabilityResponse.availableBudget (BudgetAvailabilityResponse.from d))
    in Hv.
  rewrite <- Hv.
  pose proof (available_positive_iff
                (BudgetAvailabilityResponse.availableBudget
                   (BudgetAvailabilityResponse.from d))) as Hpos.
  destruct (status_cases d) as [[Hs Hc]|[Hs Hc]]; cbv zeta in Hs, Hc; rewrite Hs.
  - apply Hpos in Hc. split; [|split].
    + tauto.
    + split; [discriminate|]. intros Hle. exfalso. lra.
    + intros He. exfalso. lra.
  - assert (Hn : ~ (0 < BigDecimal.value
                          (BudgetAvailabilityResponse.availableBudget
                             (BudgetAvailabilityResponse.from d)))%Q)
      by (rewrite <- Hpos; lia).
    split; [|split].
    + split; [discriminate|]. intros Hlt. contradiction.
    + split; [|reflexivity]. intros _. lra.
    + reflexivity.
Qed.

(** A budget of 100.00 with 60.00 used and 40.00 reserved: nothing is
    available, and the response says depleted. *)
Example drained_is_depleted :
  BudgetAvailabilityResponse.availableBudget (BudgetAvailabilityResponse.from Sample.drained)
  = Sample.money 0
  /\ BudgetAvailabilityResponse.status (BudgetAvailabilityResponse.from Sample.drained)
     = "depleted".
Proof. split; reflexivity. Qed.

(* ===================================================================== *)
(** ** Properties of the availability query                                *)
(* ===================================================================== *)

(** C3: the availability query is read-only.  Whatever the department
    identifier, the time and the behaviour of the broker, and whether the
    query returns or throws, the table of departments after the call is the
    table before the call: no field of any row has changed.  (The running
    service keeps no reservation or transaction rows.) *)
Theorem getAvailableBudget_read_only
    (env : KafkaEnv) (clock : Clock) (departmentId : string) (w : World) :
  departments (snd (BudgetService.getAvailableBudget env clock departmentId w))
  = departments w.
Proof.
  pose proof (BudgetServiceFacts.getAvailableBudget_run env clock departmentId w) as Hrun.
  destruct (selected clock departmentId w) as [d|].
  - destruct Hrun as (pubs & logs & ->). reflexivity.
  - rewrite Hrun. reflexivity.
Qed.

(** C8: the availability query throws exactly when the table holds no row
    with the identifier asked for and the current year as fiscal year.  When
    there is no such row it throws the "Department not found" exception,
    produces no response, changes no row and publishes nothing; when there
    is one, it returns the response built from such a row. *)
Theorem getAvailableBudget_fails_iff_no_record
    (env : KafkaEnv) (clock : Clock) (departmentId : string) (w : World) :
  let run := BudgetService.getAvailableBudget env clock departmentId w in
  let noRecord :=
    forall d, In d (departments w) ->
              Department.id d = departmentId ->
              Department.fiscalYear d = getYear (nowAtLookup clock) -> False in
  (threw (fst run) <-> noRecord)
  /\ (noRecord ->
      fst run = Thrown (RuntimeException ("Department not found: " +:+ departmentId))
      /\ departments (snd run) = departments w
      /\ published (snd run) = published w)
  /\ ((exists d, In d (departments w)
                 /\ Department.id d = departmentId
                 /\ Department.fiscalYear d = getYear (nowAtLookup clock)) ->
      exists d, In d (departments w)
                /\ Department.id d = departmentId
                /\ Department.fiscalYear d = getYear (nowAtLookup clock)
                /\ fst run = Returned (BudgetAvailabilityResponse.from d)).
Proof.
  cbv zeta.
  pose proof (BudgetServiceFacts.getAvailableBudget_run env clock departmentId w) as Hrun.
  pose proof (BudgetServiceFacts.selected_None clock departmentId w) as Hnone.
  destruct (selected clock departmentId w) as [d|] eqn:Hsel.
  - destruct Hrun as (pubs & logs & ->); simpl.
    destruct (BudgetServiceFacts.selected_Some _ _ _ _ Hsel) as (Hin & Hid & Hy).
    split; [|split].
    + split; [contradiction|]. intros Hno. exact (Hno d Hin Hid Hy).
    + intros Hno. exfalso. exact (Hno d Hin Hid Hy).
    + intros _. exists d. auto.
  - rewrite Hrun; simpl.
    assert (Hno := proj1 Hnone eq_refl).
    split; [|split].
    + split; auto.
    + auto.
    + intros (d & Hin & Hid & Hy). exfalso. exact (Hno d Hin Hid Hy).
Qed.

(** C9: the outcome of the availability query does not depend on the
    broker.  Two runs on the same table at the same time, one with a broker
    (and serialiser) that works and one with any other, return the same
    response or throw the same exception, because publishing the audit
    event always returns normally: what it catches, it does not rethrow. *)
Theorem response_independent_of_publish
    (env1 env2 : KafkaEnv) (clock : Clock) (departmentId : string) (w : World) :
  fst (BudgetService.getAvailableBudget env1 clock departmentId w)
  = fst (BudgetService.getAvailableBudget env2 clock departmentId w)
  /\ (forall now response w0,
        fst (BudgetService.publishBudgetQueryEvent env1 now departmentId response w0)
        = Returned tt).
Proof.
  split.
  - pose proof (BudgetServiceFacts.getAvailableBudget_run env1 clock departmentId w) as H1.
    pose proof (BudgetServiceFacts.getAvailableBudget_run env2 clock departmentId w) as H2.
    destruct (selected clock departmentId w) as [d|].
    + destruct H1 as (p1 & l1 & ->), H2 as (p2 & l2 & ->). reflexivity.
    + rewrite H1, H2. reflexivity.
  - intros now response w0.
    destruct (BudgetServiceFacts.publishBudgetQueryEvent_run env1 now departmentId response w0)
      as (pubs & logs & ->).
    reflexivity.
Qed.

(** The department exists, but for another fiscal year: the query throws. *)
Example other_fiscal_year_not_found :
  BudgetService.getAvailableBudget Sample.brokerUp
    (mkClock (mkLocalDateTime 2027 "2027-01-04T08:30:00") Sample.march2026)
    "D1" Sample.world0
  = (Thrown (RuntimeException "Department not found: D1"),
     mkWorld (departments Sample.world0) []
       [(INFO, "Fetching budget availability for department: {}");
        (ERROR, "Department not found: {} for fiscal year: {}")]).
Proof. reflexivity. Qed.

(** The two runs of C9 are different runs: with the broker up the audit
    record reaches the topic, with the broker down it does not, and the
    response is the same. *)
Example publish_outcomes_differ :
  let up := BudgetService.getAvailableBudget Sample.brokerUp Sample.clock2026 "D1" Sample.world0 in
  let down := BudgetService.getAvailableBudget Sample.brokerDown Sample.clock2026 "D1" Sample.world0 in
  published (snd up) = [("budget.events", "{}")]
  /\ published (snd down) = []
  /\ fst up = Returned (BudgetAvailabilityResponse.from Sample.operations)
  /\ fst down = Returned (BudgetAvailabilityResponse.from Sample.operations).
Proof. cbv zeta. repeat split; reflexivity. Qed.

(** C4, as stated, fails: the query takes a department identifier and no
    amount, and its response has no boolean that compares a requested
    amount with the available one.  Its only indicator, the status, says
    available for the sample department with 100.00 available, although a
    request of 500.00 exceeds what is available. *)
Lemma status_ignores_requested_amount :
  let requested := Sample.money 50000 in
  exists r,
    fst (BudgetService.getAvailableBudget Sample.brokerUp Sample.clock2026 "D3" Sample.world0)
    = Returned r
    /\ BudgetAvailabilityResponse.availableBudget r = Sample.money 10000
    /\ BudgetAvailabilityResponse.status r = "available"
    /\ BigDecimal.compareTo requested (BudgetAvailabilityResponse.availableBudget r) = 1.
Proof.
  cbv zeta. eexists. split; [reflexivity|].
  repeat split; reflexivity.
Qed.

(** C4, amended: the availability query takes a department identifier only
    and gives a typed result: either the "Department not found" exception,
    or a response record built from a row of the table, which carries the
    decimal available amount (total - used - reserved of that row) and a
    status that is one of two literals, available exactly when the
    available amount is strictly positive. *)
Theorem getAvailableBudget_typed_result
    (env : KafkaEnv) (clock : Clock) (departmentId : string) (w : World) :
  match fst (BudgetService.getAvailableBudget env clock departmentId w) with
  | Returned r =>
      exists d,
        In d (departments w)
        /\ r = BudgetAvailabilityResponse.from d
        /\ BudgetAvailabilityResponse.availableBudget r = Department.getAvailableBudget d
        /\ (BudgetAvailabilityResponse.status r = "available"
            \/ BudgetAvailabilityResponse.status r = "depleted")
        /\ (BudgetAvailabilityResponse.status r = "available"
            <-> (0 < BigDecimal.value (BudgetAvailabilityResponse.availableBudget r))%Q)
  | Thrown e => e = RuntimeException ("Department not found: " +:+ departmentId)
  end.
Proof.
  pose proof (BudgetServiceFacts.getAvailableBudget_run env clock departmentId w) as Hrun.
  destruct (selected clock departmentId w) as [d|] eqn:Hsel.
  - destruct Hrun as (pubs & logs & ->); cbn [fst].
    destruct (BudgetServiceFacts.selected_Some _ _ _ _ Hsel) as (Hin & _).
    exists d. split; [exact Hin|]. split; [reflexivity|]. split; [reflexivity|].
    pose proof (available_positive_iff
                  (BudgetAvailabilityResponse.availableBudget
                     (BudgetAvailabilityResponse.from d))) as Hpos.
    destruct (status_cases d) as [[Hs Hc]|[Hs Hc]]; cbv zeta in Hs, Hc; rewrite Hs.
    + split; [left; reflexivity|]. split; [intros _; now apply Hpos|reflexivity].
    + split; [right; reflexivity|]. split; [discriminate|].
      intros Hlt. apply Hpos in Hlt. lia.
  - rewrite Hrun. reflexivity.
Qed.

(* ===================================================================== *)
(** ** The ledger invariant                                                *)
(* ===================================================================== *)

(** The entity does not guard the invariant itself: [Department] is a plain
    mutable record whose setters check nothing, so a caller of
    [setReservedBudget(9000.00)] on the sample department would leave it
    with an available budget of -1000.00, which the query would report.
    No code of the service calls a setter of [Department]: the worlds the
    service reaches hold no such row. *)
Example setters_are_unchecked :
  let d := Sample.operations in
  let d' := Department.setReservedBudget (Sample.money 900000) d in
  BigDecimal.compareTo
    (BigDecimal.add (Department.usedBudget d) (Department.reservedBudget d))
    (Department.totalBudget d) = -1
  /\ BigDecimal.compareTo
       (BigDecimal.add (Department.usedBudget d') (Department.reservedBudget d'))
       (Department.totalBudget d') = 1
  /\ Department.getAvailableBudget d' = Sample.money (-100000)
  /\ fst (BudgetService.getAvailableBudget Sample.brokerUp Sample.clock2026 "D1"
            (mkWorld [d'] [] []))
     = Returned (BudgetAvailabilityResponse.from d')
  /\ BudgetAvailabilityResponse.status (BudgetAvailabilityResponse.from d') = "depleted".
Proof. cbv zeta. repeat split; reflexivity. Qed.

(** The table is the same in every world the service reaches. *)
Lemma reaches_departments (w w' : World) :
  reaches w w' -> departments w' = departments w.
Proof.
  induction 1 as [|w' env clock departmentId _ IH]; [reflexivity|].
  pose proof (BudgetServiceFacts.getAvailableBudget_run env clock departmentId w') as Hrun.
  destruct (selected clock departmentId w') as [d|].
  - destruct Hrun as (pubs & logs & ->). exact IH.
  - rewrite Hrun. exact IH.
Qed.


(** The entity callbacks [onCreate] and [onUpdate] write time stamps only:
    they keep the invariant. *)
Lemma callbacks_keep_invariant (t1 t2 : LocalDateTime) (d : Department) :
  withinBudget d ->
  withinBudget (Department.onCreate t1 t2 d) /\ withinBudget (Department.onUpdate t1 d).
Proof. intros H. split; exact H. Qed.



(* ===================================================================== *)
(** ** Reservation, as listed in the implementation plan                   *)
(* ===================================================================== *)

Module BudgetServicePlanFacts.

Import BudgetServicePlan.

(** One run of [reserveBudget] on a ledger that holds a row for the
    department. *)
Lemma reserveBudget_run (l : Ledger) (departmentId : string) (amount : BigDecimal)
    (b : DepartmentBudget) :
  budgets l !! departmentId = Some b ->
  reserveBudget departmentId amount l
  = if BigDecimal.compareTo (availableOf b) amount <? 0
    then (Returned (insufficient (availableOf b)), l)
    else (Returned success,
          mkLedger (<[getDepartmentId b := reservedRow amount b]> (budgets l))
            (transactions l ++ [mkBudgetTransaction (getId b) "RESERVE" amount])).
Proof.
  intros Hrow.
  unfold reserveBudget, findByDepartmentIdWithLock, saveBudget, saveTransaction,
    mbind, mret, Eff_bind, Eff_ret; simpl.
  rewrite Hrow; simpl. fold (availableOf b).
  destruct (BigDecimal.compareTo (availableOf b) amount <? 0); reflexivity.
Qed.

(** Without a row for the department the listing dereferences [null]. *)
Lemma reserveBudget_no_row (l : Ledger) (departmentId : string) (amount : BigDecimal) :
  budgets l !! departmentId = None ->
  reserveBudget departmentId amount l = (Thrown NullPointerException, l).
Proof.
  intros Hrow.
  unfold reserveBudget, findByDepartmentIdWithLock, throw, mbind, Eff_bind; simpl.
  now rewrite Hrow.
Qed.

Lemma value_availableOf (b : DepartmentBudget) :
  (BigDecimal.value (availableOf b)
   == BigDecimal.value (getTotalAmount b) - BigDecimal.value (getSpentAmount b)
      - BigDecimal.value (getReservedAmount b))%Q.
Proof. unfold availableOf. now rewrite !BigDecimalFacts.value_subtract. Qed.

(** A successful reservation leaves a row within its budget. *)
Lemma reservedRow_within (amount : BigDecimal) (b : DepartmentBudget) :
  0 <= BigDecimal.compareTo (availableOf b) amount ->
  planWithinBudget (reservedRow amount b).
Proof.
  intros Hc. unfold planWithinBudget, reservedRow; simpl.
  rewrite BigDecimalFacts.value_add.
  assert (Hge : ~ (BigDecimal.value (availableOf b) < BigDecimal.value amount)%Q)
    by (rewrite <- BigDecimalFacts.compareTo_lt; lia).
  rewrite value_availableOf in Hge. lra.
Qed.

End BudgetServicePlanFacts.

(** The listing of the implementation plan is not the [reserve] of the
    budget control service: it takes a department and an amount, no
    business key, and keeps no reservation row.  Two calls for department
    D1, each of 1000.00 (two requests of the same amount), both succeed and
    reserve 2000.00 in total. *)
Example listing_reserves_per_call :
  let amount := Sample.money 100000 in
  let first := BudgetServicePlan.reserveBudget "D1" amount Sample.ledger0 in
  let second := BudgetServicePlan.reserveBudget "D1" amount (snd first) in
  fst first = Returned BudgetServicePlan.success
  /\ fst second = Returned BudgetServicePlan.success
  /\ BudgetServicePlan.getReservedAmount <$> (BudgetServicePlan.budgets (snd first) !! "D1")
     = Some (Sample.money 100000)
  /\ BudgetServicePlan.getReservedAmount <$> (BudgetServicePlan.budgets (snd second) !! "D1")
     = Some (Sample.money 200000)
  /\ length (BudgetServicePlan.transactions (snd second)) = 2%nat.
Proof. cbv zeta. repeat split; vm_compute; reflexivity. Qed.

(* ===================================================================== *)
(** ** Reservation by business key                                         *)
(* ===================================================================== *)

Module BudgetControlFacts.

Import BudgetControl.

(** A call of [reserve] for a business key that has a reservation on the
    account answers with that reservation and writes nothing, whatever the
    amount, the actor and the time of the call. *)
Lemma reserve_existing (accountId : AccountId) (businessKey : string) (amount : BigDecimal)
    (actor : string) (now : Z) (s : LedgerStore) (a : LedgerAccount) (r : Reservation) :
  accounts s !! accountId = Some a ->
  reservations s !! (accountId, businessKey) = Some r ->
  reserve accountId businessKey amount actor now s = (Granted r, s).
Proof. intros Ha Hr. unfold reserve. now rewrite Ha, Hr. Qed.

(** A call of [reserve] for a new business key, by cases on the funds. *)
Lemma reserve_fresh (accountId : AccountId) (businessKey : string) (amount : BigDecimal)
    (actor : string) (now : Z) (s : LedgerStore) (a : LedgerAccount) :
  accounts s !! accountId = Some a ->
  reservations s !! (accountId, businessKey) = None ->
  reserve accountId businessKey amount actor now s
  = if BigDecimal.compareTo (available a) amount <? 0
    then (InsufficientFundsError (available a), s)
    else (Granted (mkReservation businessKey accountId amount Reserved None),
          mkLedgerStore (<[accountId := incrementReserved amount a]> (accounts s))
            (<[(accountId, businessKey)
               := mkReservation businessKey accountId amount Reserved None]> (reservations s))
            (transactions s
             ++ [mkLedgerTransaction accountId (Some businessKey) Reserve amount
                   (available a) (available (incrementReserved amount a)) actor now])).
Proof. intros Ha Hr. unfold reserve. now rewrite Ha, Hr. Qed.

(** After a call that granted a reservation, the account exists and the
    reservation is the one stored for the business key. *)
Lemma reserve_granted_stored (accountId : AccountId) (businessKey : string)
    (amount : BigDecimal) (actor : string) (now : Z) (s s1 : LedgerStore) (r : Reservation) :
  reserve accountId businessKey amount actor now s = (Granted r, s1) ->
  (exists a1, accounts s1 !! accountId = Some a1)
  /\ reservations s1 !! (accountId, businessKey) = Some r.
Proof.
  unfold reserve.
  destruct (accounts s !! accountId) as [a|] eqn:Ha; [|discriminate].
  destruct (reservations s !! (accountId, businessKey)) as [existing|] eqn:Hr.
  - intros [= <- <-]. split; [now exists a|exact Hr].
  - destruct (BigDecimal.compareTo (available a) amount <? 0); [discriminate|].
    intros [= <- <-]. cbn [accounts reservations]. split.
    + exists (incrementReserved amount a). apply lookup_insert_eq.
    + apply lookup_insert_eq.
Qed.

End BudgetControlFacts.

(** C5: [reserve] is idempotent per business key.  When a call of [reserve]
    on a ledger store [s] has answered with a reservation [r], leaving the
    store [s1], a second call with the same account, business key and
    amount (by any actor, at any later time) answers with the same [r] and
    leaves [s1] as it is: no field of an account, no reservation and no
    transaction changes.  So after the two calls [r] is the one reservation
    stored for the key, and where the key was new the reserved amount of the
    account has grown by [amount] once, its allocated and spent amounts are
    the same, and one transaction, of type Reserve, was appended; where the
    key had a reservation already the first call wrote nothing either. *)
Theorem reserve_idempotent_per_business_key
    (accountId : BudgetControl.AccountId) (businessKey : string) (amount : BigDecimal)
    (actor actor' : string) (now now' : Z) (s s1 : BudgetControl.LedgerStore)
    (r : BudgetControl.Reservation) :
  BudgetControl.reserve accountId businessKey amount actor now s = (BudgetControl.Granted r, s1) ->
  BudgetControl.reserve accountId businessKey amount actor' now' s1
  = (BudgetControl.Granted r, s1)
  /\ BudgetControl.reservations s1 !! (accountId, businessKey) = Some r
  /\ (BudgetControl.reservations s !! (accountId, businessKey) = None ->
      exists a a1 txn,
        BudgetControl.accounts s !! accountId = Some a
        /\ BudgetControl.accounts s1 !! accountId = Some a1
        /\ (BigDecimal.value (BudgetControl.reserved a1)
            == BigDecimal.value (BudgetControl.reserved a) + BigDecimal.value amount)%Q
        /\ BudgetControl.totalAllocated a1 = BudgetControl.totalAllocated a
        /\ BudgetControl.spent a1 = BudgetControl.spent a
        /\ BudgetControl.transactions s1 = BudgetControl.transactions s ++ [txn]
        /\ BudgetControl.type txn = BudgetControl.Reserve
        /\ BudgetControl.transactionAmount txn = amount
        /\ BudgetControl.amount r = amount)
  /\ (forall existing,
        BudgetControl.reservations s !! (accountId, businessKey) = Some existing ->
        r = existing /\ s1 = s).
Proof.
  intros Hfirst.
  destruct (BudgetControlFacts.reserve_granted_stored _ _ _ _ _ _ _ _ Hfirst)
    as ((a1 & Ha1) & Hstored).
  split; [|split; [exact Hstored|split]].
  - exact (BudgetControlFacts.reserve_existing _ _ _ _ _ _ _ _ Ha1 Hstored).
  - intros Hnew. revert Hfirst Ha1. unfold BudgetControl.reserve.
    destruct (BudgetControl.accounts s !! accountId) as [a|] eqn:Ha; [|discriminate].
    rewrite Hnew.
    destruct (BigDecimal.compareTo (BudgetControl.available a) amount <? 0); [discriminate|].
    intros [= <- <-]. cbn [BudgetControl.accounts BudgetControl.transactions].
    rewrite lookup_insert_eq. intros [= <-].
    eexists a, _, _. split; [reflexivity|]. split; [reflexivity|].
    split; [apply BigDecimalFacts.value_add|].
    repeat split.
  - intros existing Hexisting. revert Hfirst. unfold BudgetControl.reserve.
    destruct (BudgetControl.accounts s !! accountId) as [a|]; [|discriminate].
    rewrite Hexisting. intros [= <- <-]. split; reflexivity.
Qed.

Lemma reserve_idempotent_per_business_key_witness :
  let s1 := snd (BudgetControl.reserve ControlSample.d1 "R1" (Sample.money 800000)
                   "alice" 1 ControlSample.store0) in
  BudgetControl.reserve ControlSample.d1 "R1" (Sample.money 800000) "bob" 2 s1
  = (BudgetControl.Granted ControlSample.r1, s1)
  /\ BudgetControl.reservations s1 !! (ControlSample.d1, "R1") = Some ControlSample.r1.
Proof.
  cbv zeta.
  destruct (reserve_idempotent_per_business_key ControlSample.d1 "R1" (Sample.money 800000)
              "alice" "bob" 1 2 ControlSample.store0
              (snd (BudgetControl.reserve ControlSample.d1 "R1" (Sample.money 800000)
                      "alice" 1 ControlSample.store0))
              ControlSample.r1) as (Hsecond & Hstored & _).
  - reflexivity.
  - split; [exact Hsecond|exact Hstored].
Defined.

(** The scenario of the specification, as far as [reserve] goes: 10000.00
    allocated; reserving 8000.00 for R1 succeeds and leaves 2000.00
    available; reserving 8000.00 for R2 is refused with the available
    2000.00 and writes nothing; asking for R1 again, now that the funds no
    longer cover 8000.00, answers with the reservation of R1 and writes
    nothing. *)
Example reserve_scenario :
  let amount := Sample.money 800000 in
  let first := BudgetControl.reserve ControlSample.d1 "R1" amount "alice" 1 ControlSample.store0 in
  let second := BudgetControl.reserve ControlSample.d1 "R2" amount "alice" 2 (snd first) in
  let third := BudgetControl.reserve ControlSample.d1 "R1" amount "alice" 3 (snd second) in
  fst first = BudgetControl.Granted ControlSample.r1
  /\ BudgetControl.available <$> (BudgetControl.accounts (snd first) !! ControlSample.d1)
     = Some (Sample.money 200000)
  /\ second = (BudgetControl.InsufficientFundsError (Sample.money 200000), snd first)
  /\ third = (BudgetControl.Granted ControlSample.r1, snd first)
  /\ length (BudgetControl.transactions (snd third)) = 1%nat.
Proof. cbv zeta. repeat split; vm_compute; reflexivity. Qed.

(* ===================================================================== *)
(** ** Idempotent request handling, as listed in the implementation plan   *)
(* ===================================================================== *)

Module PurchaseRequestFacts.

Import PurchaseRequestService.

Section Facts.

Context {CreateRequestDto PurchaseRequest App : Type}.
Variable processRequest : CreateRequestDto -> Eff App PurchaseRequest.

(** A key that is present and has not expired: the stored response is
    returned and the store, the application state included, is untouched,
    whatever the payload. *)
Lemma createRequest_hit (now : Z) (dto : CreateRequestDto) (key : string)
    (s : Store PurchaseRequest App) (e : Entry PurchaseRequest) :
  redis s !! ("request:idempotency:" +:+ key) = Some e ->
  now < expiresAt e ->
  createRequest processRequest now dto key s = (Returned (getResponse (entryValue e)), s).
Proof.
  intros Hkey Hlive.
  unfold createRequest, redisGet, mbind, mret, Eff_bind, Eff_ret; simpl.
  rewrite Hkey.
  destruct (Z.ltb_spec now (expiresAt e)); [reflexivity|lia].
Qed.

(** A key that is absent or has expired: the operation runs; its response,
    when it returns one, is stored for 24 hours. *)
Lemma createRequest_miss (now : Z) (dto : CreateRequestDto) (key : string)
    (s : Store PurchaseRequest App) :
  (forall e, redis s !! ("request:idempotency:" +:+ key) = Some e -> expiresAt e <= now) ->
  createRequest processRequest now dto key s
  = match processRequest dto (app s) with
    | (Returned r, a') =>
        (Returned r,
         mkStore (<["request:idempotency:" +:+ key
                    := mkEntry (mkCachedResponse r now) (now + ttlSeconds)]> (redis s)) a')
    | (Thrown x, a') => (Thrown x, mkStore (redis s) a')
    end.
Proof.
  intros Hkey.
  unfold createRequest, redisGet, redisSet, runProcessRequest,
    mbind, mret, Eff_bind, Eff_ret; simpl.
  destruct (redis s !! _) as [e|] eqn:He.
  - specialize (Hkey e eq_refl).
    destruct (Z.ltb_spec now (expiresAt e)); [lia|].
    destruct (processRequest dto (app s)) as [[r|x] a']; reflexivity.
  - destruct (processRequest dto (app s)) as [[r|x] a']; reflexivity.
Qed.

(** Retries against a live key all replay the stored response. *)
Lemma retry_hits (key : string) (s : Store PurchaseRequest App) (e : Entry PurchaseRequest)
    (retries : list (Z * CreateRequestDto)) :
  redis s !! ("request:idempotency:" +:+ key) = Some e ->
  Forall (fun c => fst c < expiresAt e) retries ->
  retry processRequest key retries s
  = (map (fun _ => Returned (getResponse (entryValue e))) retries, s).
Proof.
  intros Hkey Hlive.
  induction Hlive as [|[now dto] rest Hnow _ IH]; [reflexivity|].
  simpl in *. rewrite (createRequest_hit now dto key s e Hkey Hnow), IH.
  reflexivity.
Qed.

End Facts.

End PurchaseRequestFacts.

(** C7, as stated, fails on the listed [createRequest]: it stores no
    fingerprint and has no Conflict error.  A second call with the same key
    and another payload is answered with the response of the first call. *)
Lemma same_key_other_payload_replays :
  let first :=
    PurchaseRequestService.createRequest Sample.countingProcess 0 "laptop" "k1" Sample.store0 in
  let second :=
    PurchaseRequestService.createRequest Sample.countingProcess 60 "server" "k1" (snd first) in
  fst first = Returned ("laptop", 0%nat)
  /\ fst second = Returned ("laptop", 0%nat)
  /\ PurchaseRequestService.app (snd second) = 1%nat.
Proof. cbv zeta. repeat split; vm_compute; reflexivity. Qed.

(** C7, amended: after a call of [createRequest] that found no live entry
    for its key and returned a response, every retry with the same key
    within the 24 hours of the entry returns that same response, whatever
    its payload, without running the operation again: the store after the
    retries, the application state in it, is the store after the first
    call.  No fingerprint is stored or compared and no Conflict is raised. *)
Theorem createRequest_replays_cached_response
    {CreateRequestDto PurchaseRequest App : Type}
    (processRequest : CreateRequestDto -> Eff App PurchaseRequest)
    (key : string) (now : Z) (dto : CreateRequestDto) (r : PurchaseRequest)
    (s s1 : PurchaseRequestService.Store PurchaseRequest App)
    (retries : list (Z * CreateRequestDto)) :
  (forall e, PurchaseRequestService.redis s !! ("request:idempotency:" +:+ key) = Some e ->
             PurchaseRequestService.expiresAt e <= now) ->
  PurchaseRequestService.createRequest processRequest now dto key s = (Returned r, s1) ->
  Forall (fun c => fst c < now + PurchaseRequestService.ttlSeconds) retries ->
  processRequest dto (PurchaseRequestService.app s)
  = (Returned r, PurchaseRequestService.app s1)
  /\ PurchaseRequestService.retry processRequest key retries s1
     = (map (fun _ => Returned r) retries, s1).
Proof.
  intros Hfresh Hfirst Hlive.
  rewrite (PurchaseRequestFacts.createRequest_miss processRequest now dto key s Hfresh)
    in Hfirst.
  destruct (processRequest dto (PurchaseRequestService.app s)) as [[r'|x] a'] eqn:Hop;
    [|discriminate].
  injection Hfirst as -> <-. split; [reflexivity|].
  apply (PurchaseRequestFacts.retry_hits processRequest key _
           (PurchaseRequestService.mkEntry
              (PurchaseRequestService.mkCachedResponse r now)
              (now + PurchaseRequestService.ttlSeconds))).
  - cbn. apply lookup_insert_eq.
  - exact Hlive.
Qed.

Lemma createRequest_replays_cached_response_witness :
  let first :=
    PurchaseRequestService.createRequest Sample.countingProcess 0 "laptop" "k1" Sample.store0 in
  let retries := [(1, "laptop"); (3600, "server"); (86399, "laptop")] in
  Sample.countingProcess "laptop" (PurchaseRequestService.app Sample.store0)
  = (Returned ("laptop", 0%nat), PurchaseRequestService.app (snd first))
  /\ PurchaseRequestService.retry Sample.countingProcess "k1" retries (snd first)
     = (map (fun _ => Returned ("laptop", 0%nat)) retries, snd first).
Proof.
  cbv zeta.
  apply (createRequest_replays_cached_response Sample.countingProcess "k1" 0 "laptop"
           ("laptop", 0%nat) Sample.store0
           (snd (PurchaseRequestService.createRequest Sample.countingProcess 0 "laptop" "k1"
                   Sample.store0))
           [(1, "laptop"); (3600, "server"); (86399, "laptop")]).
  - intros e He. vm_compute in He. discriminate He.
  - vm_compute. reflexivity.
  - repeat constructor.
Defined.

(* ===================================================================== *)
(** ** Reconciliation                                                      *)
(* ===================================================================== *)

Module ReconciliationFacts.

Import Reconciliation.
Local Open Scope Q_scope.

Lemma Qeq_bool_false (x y : Q) : Qeq_bool x y = false <-> ~ x == y.
Proof.
  rewrite <- Qeq_bool_iff. destruct (Qeq_bool x y); split; congruence.
Qed.

Lemma Qle_bool_false (x y : Q) : Qle_bool x y = false <-> ~ x <= y.
Proof.
  rewrite <- Qle_bool_iff. destruct (Qle_bool x y); split; congruence.
Qed.

(** The verdict of [match_], by cases on the three tests it makes. *)
Lemma verdict_cases (order : Order) (receipt : Receipt) (invoice : Invoice) (tolerance : Q) :
  let received := receiptAmount receipt in
  let v := invoiceAmount invoice - received in
  let r := match_ order receipt invoice tolerance in
  (v == 0 /\ verdict r = Matched)
  \/ (~ v == 0 /\ received == 0 /\ verdict r = Mismatch)
  \/ (~ v == 0 /\ ~ received == 0 /\ Qabs v / received * 100 <= tolerance
      /\ verdict r = WithinTolerance)
  \/ (~ v == 0 /\ ~ received == 0 /\ ~ Qabs v / received * 100 <= tolerance
      /\ verdict r = Mismatch).
Proof.
  cbv zeta. unfold match_; simpl.
  destruct (Qeq_bool (invoiceAmount invoice - receiptAmount receipt) 0) eqn:Hv.
  - left. apply Qeq_bool_iff in Hv. auto.
  - right. apply Qeq_bool_false in Hv.
    destruct (Qeq_bool (receiptAmount receipt) 0) eqn:Hr.
    + left. apply Qeq_bool_iff in Hr. auto.
    + right. apply Qeq_bool_false in Hr.
      destruct (Qle_bool _ tolerance) eqn:Ht.
      * left. apply Qle_bool_iff in Ht. auto.
      * right. apply Qle_bool_false in Ht. auto.
Qed.

End ReconciliationFacts.

(** C6: the verdict of the reconciliation match is Matched exactly when
    invoiceAmount - receiptAmount is zero; WithinTolerance exactly when the
    variance is not zero, the receipt amount is not zero and the absolute
    variance as a percentage of the receipt amount is at most the
    tolerance; Mismatch otherwise, in particular for a zero receipt amount
    and a nonzero invoice.  With a receipt amount of 1000 and a tolerance of
    5 percent an invoice of 1049 is WithinTolerance and an invoice of 1051
    is Mismatch. *)
Theorem match_verdict
    (order : Reconciliation.Order) (receipt : Reconciliation.Receipt)
    (invoice : Reconciliation.Invoice) (tolerance : Q) :
  let received := Reconciliation.receiptAmount receipt in
  let v := (Reconciliation.invoiceAmount invoice - received)%Q in
  let r := Reconciliation.match_ order receipt invoice tolerance in
  (Reconciliation.variance r = v)
  /\ (Reconciliation.verdict r = Reconciliation.Matched <-> (v == 0)%Q)
  /\ (Reconciliation.verdict r = Reconciliation.WithinTolerance
      <-> (~ (v == 0)%Q /\ ~ (received == 0)%Q
           /\ (Qabs v / received * 100 <= tolerance)%Q))
  /\ (Reconciliation.verdict r = Reconciliation.Mismatch
      <-> (~ (v == 0)%Q
           /\ ((received == 0)%Q \/ ~ (Qabs v / received * 100 <= tolerance)%Q)))
  /\ ((received == 0)%Q -> ~ (Reconciliation.invoiceAmount invoice == 0)%Q ->
      Reconciliation.verdict r = Reconciliation.Mismatch)
  /\ ((received == 1000)%Q -> (tolerance == 5)%Q ->
      ((Reconciliation.invoiceAmount invoice == 1049)%Q ->
       Reconciliation.verdict r = Reconciliation.WithinTolerance)
      /\ ((Reconciliation.invoiceAmount invoice == 1051)%Q ->
          Reconciliation.verdict r = Reconciliation.Mismatch)).
Proof.
  cbv zeta.
  pose proof (ReconciliationFacts.verdict_cases order receipt invoice tolerance) as Hcases.
  cbv zeta in Hcases.
  set (received := Reconciliation.receiptAmount receipt) in *.
  set (v := (Reconciliation.invoiceAmount invoice - received)%Q) in *.
  set (r := Reconciliation.match_ order receipt invoice tolerance) in *.
  assert (Hmatched : Reconciliation.verdict r = Reconciliation.Matched <-> (v == 0)%Q).
  { destruct Hcases as [(H0 & ->)|[(H0 & _ & ->)|[(H0 & _ & _ & ->)|(H0 & _ & _ & ->)]]];
      split; intros; try reflexivity; try discriminate; try contradiction; auto. }
  assert (Hwithin : Reconciliation.verdict r = Reconciliation.WithinTolerance
                    <-> (~ (v == 0)%Q /\ ~ (received == 0)%Q
                         /\ (Qabs v / received * 100 <= tolerance)%Q)).
  { destruct Hcases as [(H0 & ->)|[(H0 & Hr & ->)|[(H0 & Hr & Ht & ->)|(H0 & Hr & Ht & ->)]]];
      split; intros; try reflexivity; try discriminate; tauto. }
  assert (Hmis : Reconciliation.verdict r = Reconciliation.Mismatch
                 <-> (~ (v == 0)%Q
                      /\ ((received == 0)%Q \/ ~ (Qabs v / received * 100 <= tolerance)%Q))).
  { destruct Hcases as [(H0 & ->)|[(H0 & Hr & ->)|[(H0 & Hr & Ht & ->)|(H0 & Hr & Ht & ->)]]];
      split; intros; try reflexivity; try discriminate; tauto. }
  split; [reflexivity|].
  split; [exact Hmatched|]. split; [exact Hwithin|]. split; [exact Hmis|]. split.
  - intros Hr Hi. apply Hmis. split; [|left; exact Hr].
    subst v. intros Hv. apply Hi. rewrite Hr in Hv. lra.
  - intros Hr Ht. split; intros Hi.
    + apply Hwithin. subst v.
      assert (Hv : (Reconciliation.invoiceAmount invoice - received == 49)%Q)
        by (rewrite Hi, Hr; reflexivity).
      split; [rewrite Hv; discriminate|]. split; [rewrite Hr; discriminate|].
      rewrite Hv, Hr, Ht. discriminate.
    + apply Hmis. subst v.
      assert (Hv : (Reconciliation.invoiceAmount invoice - received == 51)%Q)
        by (rewrite Hi, Hr; reflexivity).
      split; [rewrite Hv; discriminate|]. right.
      rewrite Hv, Hr, Ht. intros Hle. apply Hle. reflexivity.
Qed.

(** The two boundary cases of C6, run: ten units received at 100 each. *)
Example reconciliation_boundary :
  let order := Reconciliation.mkOrder "PO-1" 1000 in
  let receipt :=
    Reconciliation.mkReceipt "GR-1" [Reconciliation.mkReceiptLine 10 100] in
  Reconciliation.verdict
    (Reconciliation.match_ order receipt (Reconciliation.mkInvoice "INV-1" 1049) 5)
  = Reconciliation.WithinTolerance
  /\ Reconciliation.verdict
       (Reconciliation.match_ order receipt (Reconciliation.mkInvoice "INV-2" 1051) 5)
     = Reconciliation.Mismatch
  /\ Reconciliation.verdict
       (Reconciliation.match_ order receipt (Reconciliation.mkInvoice "INV-3" 1000) 5)
     = Reconciliation.Matched
  /\ Reconciliation.verdict
       (Reconciliation.match_ order receipt (Reconciliation.mkInvoice "INV-4" 1050) 5)
     = Reconciliation.WithinTolerance.
Proof. cbv zeta. repeat split; reflexivity. Qed.

(** The example of the implementation plan: a receipt worth 9800 and an
    invoice of 9850 differ by 50, about half a percent, within the 5
    percent tolerance; a variance of 2000 exceeds it. *)
Example plan_matching_example :
  let order := Reconciliation.mkOrder "PO-2" 10000 in
  let receipt :=
    Reconciliation.mkReceipt "GR-2" [Reconciliation.mkReceiptLine 98 100] in
  Reconciliation.variance
    (Reconciliation.match_ order receipt (Reconciliation.mkInvoice "INV-5" 9850) 5)
  = (9850 - (98 * 100 + 0))%Q
  /\ Reconciliation.verdict
       (Reconciliation.match_ order receipt (Reconciliation.mkInvoice "INV-5" 9850) 5)
     = Reconciliation.WithinTolerance
  /\ Reconciliation.verdict
       (Reconciliation.match_ order receipt (Reconciliation.mkInvoice "INV-6" 11800) 5)
     = Reconciliation.Mismatch.
Proof. cbv zeta. repeat split; reflexivity. Qed.

(* ===================================================================== *)
(** ** More on the running budget service                                  *)
(* ===================================================================== *)

Module AuditFacts.

Import BudgetService.

(** One run of [sendEvent], by cases on the serialiser and the broker. *)
Lemma sendEvent_run (env : KafkaEnv) (topic : string) (event : gmap string Obj) (w : World) :
  KafkaProducerService.sendEvent env topic event w
  = match writeValueAsString env event with
    | Some json =>
        if sendAccepted env topic json
        then (Returned tt,
              mkWorld (departments w) (published w ++ [(topic, json)])
                (logOut w ++ [(DEBUG, "Event sent to Kafka topic {}: {}")]))
        else (Thrown (RuntimeExceptionCausedBy "Failed to send Kafka event" KafkaException),
              mkWorld (departments w) (published w)
                (logOut w ++ [(ERROR, "Failed to send event to Kafka topic: {}")]))
    | None =>
        (Thrown (RuntimeExceptionCausedBy "Failed to send Kafka event" JsonProcessingException),
         mkWorld (departments w) (published w)
           (logOut w ++ [(ERROR, "Failed to send event to Kafka topic: {}")]))
    end.
Proof.
  unfold KafkaProducerService.sendEvent, KafkaProducerService.serialise,
    KafkaProducerService.send, tryCatch, throw, log, mbind, mret, Eff_bind, Eff_ret; simpl.
  destruct (writeValueAsString env event) as [json|]; simpl; [|reflexivity].
  destruct (sendAccepted env topic json); reflexivity.
Qed.

(** What publishing the audit event leaves on the broker. *)
Lemma publishBudgetQueryEvent_published env now departmentId response w :
  let run := publishBudgetQueryEvent env now departmentId response w in
  fst run = Returned tt
  /\ departments (snd run) = departments w
  /\ published (snd run)
     = published w
       ++ handedOver env "budget.events" (budgetQueriedEvent now departmentId response).
Proof.
  cbv zeta. unfold publishBudgetQueryEvent, tryCatch, mbind, Eff_bind, log, handedOver.
  rewrite sendEvent_run.
  destruct (writeValueAsString env _) as [json|]; simpl.
  - destruct (sendAccepted env _ json); simpl; rewrite ?app_nil_r; auto.
  - rewrite app_nil_r. auto.
Qed.

(** What one query leaves on the broker, whatever was logged before. *)
Lemma getAvailableBudget_published env clock departmentId w :
  published (snd (getAvailableBudget env clock departmentId w))
  = published w ++ audited env clock departmentId w.
Proof.
  unfold audited, selected.
  unfold getAvailableBudget, DepartmentRepository.findByIdAndFiscalYear, throw, log,
    mbind, mret, Eff_bind, Eff_ret; simpl.
  destruct (find _ (departments w)) as [d|]; simpl.
  - match goal with
    | |- context [publishBudgetQueryEvent ?e ?n ?i ?r ?w0] =>
        destruct (publishBudgetQueryEvent_published e n i r w0) as (Hret & _ & Hpub);
        destruct (publishBudgetQueryEvent e n i r w0) as [o w1]
    end.
    simpl in *. subst o. simpl. exact Hpub.
  - now rewrite app_nil_r.
Qed.

(** The outcome of a query is decided by the table and the year alone. *)
Lemma getAvailableBudget_outcome env clock departmentId w :
  fst (getAvailableBudget env clock departmentId w)
  = match selected clock departmentId w with
    | Some d => Returned (BudgetAvailabilityResponse.from d)
    | None => Thrown (RuntimeException ("Department not found: " +:+ departmentId))
    end.
Proof.
  pose proof (BudgetServiceFacts.getAvailableBudget_run env clock departmentId w) as Hrun.
  destruct (selected clock departmentId w) as [d|].
  - destruct Hrun as (pubs & logs & ->). reflexivity.
  - rewrite Hrun. reflexivity.
Qed.

(** The row selected depends on the clock through its year only, and on
    the world through its table only. *)
Lemma selected_ext clock1 clock2 departmentId w1 w2 :
  departments w1 = departments w2 ->
  getYear (nowAtLookup clock1) = getYear (nowAtLookup clock2) ->
  selected clock1 departmentId w1 = selected clock2 departmentId w2.
Proof. unfold selected. intros -> ->. reflexivity. Qed.

End AuditFacts.

(** The table after a query is the table before it. *)
Lemma getAvailableBudget_read_only_aux env clock departmentId w :
  departments (snd (BudgetService.getAvailableBudget env clock departmentId w))
  = departments w.
Proof. apply (reaches_departments w). apply reaches_query, reaches_start. Qed.

(** X1: [sendEvent] either hands the event over or throws, never both and
    never neither.  When it returns, Jackson has serialised the event,
    exactly one record, the serialised event on the topic asked for, has
    been accepted by [KafkaTemplate.send], and one DEBUG line is logged.
    (The future [send] returns is discarded: that the record reaches the
    broker is not awaited, and a delivery that fails later is not
    reported.)  When it does not return, it throws a [RuntimeException]
    with the message Failed to send Kafka event that wraps the cause
    (Jackson's exception, or the exception the call of [send] has thrown),
    no record has been accepted and one ERROR line is logged.  The table
    is never touched. *)
Theorem sendEvent_hands_over_or_throws
    (env : KafkaEnv) (topic : string) (event : gmap string Obj) (w : World) :
  let run := KafkaProducerService.sendEvent env topic event w in
  departments (snd run) = departments w
  /\ ((exists json,
         writeValueAsString env event = Some json
         /\ sendAccepted env topic json = true
         /\ fst run = Returned tt
         /\ published (snd run) = published w ++ [(topic, json)]
         /\ logOut (snd run) = logOut w ++ [(DEBUG, "Event sent to Kafka topic {}: {}")])
      \/ (exists cause,
            fst run = Thrown (RuntimeExceptionCausedBy "Failed to send Kafka event" cause)
            /\ ((cause = JsonProcessingException /\ writeValueAsString env event = None)
                \/ (cause = KafkaException
                    /\ exists json, writeValueAsString env event = Some json
                                    /\ sendAccepted env topic json = false))
            /\ published (snd run) = published w
            /\ logOut (snd run) = logOut w ++ [(ERROR, "Failed to send event to Kafka topic: {}")])).
Proof.
  cbv zeta. rewrite AuditFacts.sendEvent_run.
  destruct (writeValueAsString env event) as [json|].
  - destruct (sendAccepted env topic json) eqn:Hsend; simpl.
    + split; [reflexivity|]. left. exists json. auto.
    + split; [reflexivity|]. right. exists KafkaException.
      split; [reflexivity|]. split; [right; eauto|auto].
  - simpl. split; [reflexivity|]. right. exists JsonProcessingException. auto.
Qed.

(** The six entries of the audit event. *)
Lemma budgetQueriedEvent_entries now departmentId response :
  let event := BudgetService.budgetQueriedEvent now departmentId response in
  event !! "eventType" = Some (OString "BUDGET_QUERIED")
  /\ event !! "departmentId" = Some (OString departmentId)
  /\ event !! "availableBudget"
     = Some (ODecimal (BudgetAvailabilityResponse.availableBudget response))
  /\ event !! "totalBudget"
     = Some (ODecimal (BudgetAvailabilityResponse.totalBudget response))
  /\ event !! "timestamp" = Some (OString (toString now))
  /\ event !! "service" = Some (OString "budget-service")
  /\ size event = 6%nat.
Proof.
  cbv zeta. unfold BudgetService.budgetQueriedEvent.
  repeat split; by simplify_map_eq.
Qed.

(** X2: the audit trail of the availability query.  A query appends at most
    one record to the records of the broker and changes none of the earlier
    ones; a query that throws appends nothing; and a record that is appended
    is on the topic budget.events and is the serialisation of an event that
    names the department asked for and carries the available and the total
    budget of the very response the caller receives. *)
Theorem query_audit_trail
    (env : KafkaEnv) (clock : Clock) (departmentId : string) (w : World) :
  let run := BudgetService.getAvailableBudget env clock departmentId w in
  exists records,
    published (snd run) = published w ++ records
    /\ (length records <= 1)%nat
    /\ (threw (fst run) -> records = [])
    /\ (forall topic json, In (topic, json) records ->
          topic = "budget.events"
          /\ exists r event,
               fst run = Returned r
               /\ writeValueAsString env event = Some json
               /\ event !! "eventType" = Some (OString "BUDGET_QUERIED")
               /\ event !! "departmentId" = Some (OString departmentId)
               /\ event !! "availableBudget"
                  = Some (ODecimal (BudgetAvailabilityResponse.availableBudget r))
               /\ event !! "totalBudget"
                  = Some (ODecimal (BudgetAvailabilityResponse.totalBudget r))).
Proof.
  cbv zeta. exists (audited env clock departmentId w).
  split; [apply AuditFacts.getAvailableBudget_published|].
  rewrite AuditFacts.getAvailableBudget_outcome.
  unfold audited, handedOver.
  destruct (selected clock departmentId w) as [d|]; simpl.
  - set (event := BudgetService.budgetQueriedEvent _ _ _).
    destruct (writeValueAsString env event) as [json|] eqn:Hjson.
    + destruct (sendAccepted env "budget.events" json); simpl.
      * split; [lia|]. split; [contradiction|].
        intros topic json' [Heq|[]]. injection Heq as <- <-.
        split; [reflexivity|].
        exists (BudgetAvailabilityResponse.from d), event.
        destruct (budgetQueriedEvent_entries (nowAtPublish clock) departmentId
                    (BudgetAvailabilityResponse.from d))
          as (He & Hd & Ha & Ht & _).
        auto 10.
      * split; [lia|]. split; [reflexivity|]. intros ? ? [].
    + simpl. split; [lia|]. split; [reflexivity|]. intros ? ? [].
  - split; [lia|]. split; [reflexivity|]. intros ? ? [].
Qed.

(** X3: the controller adds logging and nothing else.  It answers with
    status 200 and exactly the response of the service when the service
    returns, lets the exception of the service through unchanged when it
    throws, leaves the table alone and publishes exactly what the service
    publishes. *)
Theorem controller_is_transparent
    (env : KafkaEnv) (clock : Clock) (departmentId : string) (w : World) :
  let svc := BudgetService.getAvailableBudget env clock departmentId w in
  let ctl := BudgetController.getAvailableBudget env clock departmentId w in
  fst ctl
  = match fst svc with
    | Returned r => Returned (BudgetController.mkResponseEntity 200 r)
    | Thrown e => Thrown e
    end
  /\ departments (snd ctl) = departments w
  /\ published (snd ctl) = published (snd svc).
Proof.
  cbv zeta.
  unfold BudgetController.getAvailableBudget, BudgetController.tryCatchRuntime,
    BudgetController.ok, log, throw, mbind, mret, Eff_bind, Eff_ret; simpl.
  set (w1 := mkWorld (departments w) (published w) _).
  pose proof (AuditFacts.getAvailableBudget_outcome env clock departmentId w1) as Hout.
  pose proof (AuditFacts.getAvailableBudget_published env clock departmentId w1) as Hpub.
  pose proof (getAvailableBudget_read_only_aux env clock departmentId w1) as Hdep.
  rewrite (AuditFacts.selected_ext clock clock departmentId w1 w eq_refl eq_refl) in Hout.
  unfold audited in Hpub.
  rewrite (AuditFacts.selected_ext clock clock departmentId w1 w eq_refl eq_refl) in Hpub.
  fold (audited env clock departmentId w) in Hpub.
  rewrite AuditFacts.getAvailableBudget_outcome, AuditFacts.getAvailableBudget_published.
  destruct (BudgetService.getAvailableBudget env clock departmentId w1) as [o w2].
  simpl in Hout, Hpub, Hdep. subst o.
  destruct (selected clock departmentId w) as [d|]; simpl; auto.
Qed.

(** X4: availability queries can be repeated.  In any world reached by any
    number of queries, a query for the same department in the same year
    has the outcome it has in the starting world, whatever the broker did
    in between and does now. *)
Theorem query_is_repeatable
    (w w' : World) (env1 env2 : KafkaEnv) (clock1 clock2 : Clock) (departmentId : string) :
  reaches w w' ->
  getYear (nowAtLookup clock1) = getYear (nowAtLookup clock2) ->
  fst (BudgetService.getAvailableBudget env1 clock1 departmentId w')
  = fst (BudgetService.getAvailableBudget env2 clock2 departmentId w).
Proof.
  intros Hreach Hyear.
  rewrite !AuditFacts.getAvailableBudget_outcome.
  rewrite (AuditFacts.selected_ext clock1 clock2 departmentId w' w); auto.
  now apply reaches_departments.
Qed.

Lemma query_is_repeatable_witness :
  let w' :=
    snd (BudgetService.getAvailableBudget Sample.brokerUp Sample.clock2026 "D2"
           (snd (BudgetService.getAvailableBudget Sample.brokerDown Sample.clock2026 "D9"
                   Sample.world0))) in
  fst (BudgetService.getAvailableBudget Sample.brokerDown Sample.clock2026 "D1" w')
  = fst (BudgetService.getAvailableBudget Sample.brokerUp Sample.clock2026 "D1" Sample.world0).
Proof.
  cbv zeta.
  apply (query_is_repeatable Sample.world0 _ Sample.brokerDown Sample.brokerUp
           Sample.clock2026 Sample.clock2026 "D1").
  - apply reaches_query, reaches_query, reaches_start.
  - reflexivity.
Defined.

(** X5: the response answers the request.  A response that is returned
    names the department identifier that was asked for and the year of the
    clock as fiscal year, and its four amounts add up: total = used +
    reserved + available. *)
Theorem response_answers_the_request
    (env : KafkaEnv) (clock : Clock) (departmentId : string) (w : World)
    (r : BudgetAvailabilityResponse) :
  fst (BudgetService.getAvailableBudget env clock departmentId w) = Returned r ->
  BudgetAvailabilityResponse.departmentId r = departmentId
  /\ BudgetAvailabilityResponse.fiscalYear r = getYear (nowAtLookup clock)
  /\ (BigDecimal.value (BudgetAvailabilityResponse.totalBudget r)
      == BigDecimal.value (BudgetAvailabilityResponse.usedBudget r)
         + BigDecimal.value (BudgetAvailabilityResponse.reservedBudget r)
         + BigDecimal.value (BudgetAvailabilityResponse.availableBudget r))%Q.
Proof.
  rewrite AuditFacts.getAvailableBudget_outcome.
  destruct (selected clock departmentId w) as [d|] eqn:Hsel; [|discriminate].
  intros [= <-].
  destruct (BudgetServiceFacts.selected_Some _ _ _ _ Hsel) as (_ & Hid & Hy).
  split; [exact Hid|]. split; [exact Hy|].
  simpl. rewrite value_getAvailableBudget. ring.
Qed.

Lemma response_answers_the_request_witness :
  let r := BudgetAvailabilityResponse.from Sample.operations in
  BudgetAvailabilityResponse.departmentId r = "D1"
  /\ BudgetAvailabilityResponse.fiscalYear r = getYear (nowAtLookup Sample.clock2026)
  /\ (BigDecimal.value (BudgetAvailabilityResponse.totalBudget r)
      == BigDecimal.value (BudgetAvailabilityResponse.usedBudget r)
         + BigDecimal.value (BudgetAvailabilityResponse.reservedBudget r)
         + BigDecimal.value (BudgetAvailabilityResponse.availableBudget r))%Q.
Proof.
  cbv zeta.
  apply (response_answers_the_request Sample.brokerUp Sample.clock2026 "D1" Sample.world0).
  reflexivity.
Defined.

(** X6: the response does not depend on how the amounts are written.  Two
    rows whose total, used and reserved amounts denote the same numbers
    with other scales (100, 100.0, 100.00) get the same status, and
    available amounts that denote the same number. *)
Theorem status_ignores_scale (d : Department) (total used reserved : BigDecimal) :
  (BigDecimal.value total == BigDecimal.value (Department.totalBudget d))%Q ->
  (BigDecimal.value used == BigDecimal.value (Department.usedBudget d))%Q ->
  (BigDecimal.value reserved == BigDecimal.value (Department.reservedBudget d))%Q ->
  let d' := rescaled total used reserved d in
  BudgetAvailabilityResponse.status (BudgetAvailabilityResponse.from d')
  = BudgetAvailabilityResponse.status (BudgetAvailabilityResponse.from d)
  /\ (BigDecimal.value
        (BudgetAvailabilityResponse.availableBudget (BudgetAvailabilityResponse.from d'))
      == BigDecimal.value
           (BudgetAvailabilityResponse.availableBudget (BudgetAvailabilityResponse.from d)))%Q.
Proof.
  intros Ht Hu Hr. cbv zeta.
  assert (Hv : (BigDecimal.value (Department.getAvailableBudget
                                    (rescaled total used reserved d))
                == BigDecimal.value (Department.getAvailableBudget d))%Q).
  { rewrite !value_getAvailableBudget. simpl. rewrite Ht, Hu, Hr. reflexivity. }
  split; [|exact Hv].
  pose proof (available_positive_iff (Department.getAvailableBudget d)) as Hp.
  pose proof (available_positive_iff
                (Department.getAvailableBudget (rescaled total used reserved d))) as Hp'.
  rewrite Hv in Hp'.
  destruct (status_cases d) as [[Hs Hc]|[Hs Hc]];
    destruct (status_cases (rescaled total used reserved d)) as [[Hs' Hc']|[Hs' Hc']];
    cbv zeta in Hs, Hc, Hs', Hc'; rewrite Hs, Hs'; try reflexivity; exfalso;
    change (BudgetAvailabilityResponse.availableBudget (BudgetAvailabilityResponse.from ?x))
      with (Department.getAvailableBudget x) in *.
  - apply Hp, Hp' in Hc. lia.
  - apply Hp', Hp in Hc'. lia.
Qed.

Lemma status_ignores_scale_witness :
  let d' := rescaled (BigDecimal.mk 10000 0) (BigDecimal.mk 20000000 4)
              (BigDecimal.mk 30000 1) Sample.operations in
  BudgetAvailabilityResponse.status (BudgetAvailabilityResponse.from d')
  = BudgetAvailabilityResponse.status (BudgetAvailabilityResponse.from Sample.operations)
  /\ (BigDecimal.value
        (BudgetAvailabilityResponse.availableBudget (BudgetAvailabilityResponse.from d'))
      == BigDecimal.value
           (BudgetAvailabilityResponse.availableBudget
              (BudgetAvailabilityResponse.from Sample.operations)))%Q.
Proof.
  cbv zeta.
  apply (status_ignores_scale Sample.operations); vm_compute; reflexivity.
Defined.

(** X7: what the setters do to the available budget.  Setting the total to
    [v] moves the available budget by the difference between [v] and the old
    total; setting the used or the reserved amount to [v] moves it by the
    opposite of the difference to the old amount. *)
Theorem setters_move_available (d : Department) (v : BigDecimal) :
  (BigDecimal.value (Department.getAvailableBudget (Department.setTotalBudget v d))
   == BigDecimal.value (Department.getAvailableBudget d)
      + (BigDecimal.value v - BigDecimal.value (Department.totalBudget d)))%Q
  /\ (BigDecimal.value (Department.getAvailableBudget (Department.setUsedBudget v d))
      == BigDecimal.value (Department.getAvailableBudget d)
         - (BigDecimal.value v - BigDecimal.value (Department.usedBudget d)))%Q
  /\ (BigDecimal.value (Department.getAvailableBudget (Department.setReservedBudget v d))
      == BigDecimal.value (Department.getAvailableBudget d)
         - (BigDecimal.value v - BigDecimal.value (Department.reservedBudget d)))%Q.
Proof.
  rewrite !value_getAvailableBudget; simpl.
  repeat split; ring.
Qed.

(* ===================================================================== *)
(** ** The API gateway                                                     *)
(* ===================================================================== *)

Module GatewayFacts.

Import Js.

(** One run of the budget proxy, by cases on what [fetch] does. *)
Lemma budget_proxy_run (net : Net) (config : string -> option string)
    (departmentId : string) (console : Console) :
  let request :=
    mkRequest
      (GatewayBudgetController.budgetServiceUrl config
       +:+ "/api/v1/budgets/" +:+ departmentId +:+ "/available")
      "GET" [] None in
  let unavailable :=
    (inl (Http (mkHttpException (JString "Failed to fetch budget information") 503)),
     console ++ ["Error calling Budget Service:"]) in
  GatewayBudgetController.getAvailableBudget net config departmentId console
  = match fetch net request with
    | inr response =>
        if ok response
        then match json response with
             | inr data => (inr data, console)
             | inl _ => unavailable
             end
        else (inl (Http (mkHttpException
                           (JString ("Budget service error: " +:+ statusText response))
                           (status response))),
              console ++ ["Error calling Budget Service:"])
    | inl _ => unavailable
    end.
Proof.
  cbv zeta.
  unfold GatewayBudgetController.getAvailableBudget, tryCatchJs, awaitFetch, awaitJson,
    throwJs, writeLine, mbind, mret, Async_bind, Async_ret; simpl.
  destruct (fetch net _) as [message|response]; simpl; [reflexivity|].
  destruct (ok response); simpl; [|reflexivity].
  destruct (json response) as [message|data]; reflexivity.
Qed.

(** One run of the request proxy, by cases on what [fetch] does. *)
Lemma request_proxy_run (net : Net) (config : string -> option string)
    (requestBody : Json) (console : Console) :
  let request :=
    mkRequest (RequestController.requestServiceUrl config +:+ "/api/v1/requests") "POST"
      [("Content-Type", "application/json")] (Some (stringify net requestBody)) in
  let logged :=
    (console ++ ["Proxying request creation to Request Service"])
    ++ ["Error calling Request Service:"] in
  let unavailable :=
    (inl (Http (mkHttpException (JString "Failed to create purchase request") 503)), logged) in
  RequestController.createRequest net config requestBody console
  = match fetch net request with
    | inr response =>
        if ok response
        then match json response with
             | inr data =>
                 (inr data, console ++ ["Proxying request creation to Request Service"])
             | inl _ => unavailable
             end
        else match RequestController.errorBody response with
             | JNull => unavailable
             | JObject members =>
                 (inl (Http (mkHttpException
                               (orElse (member "message" members)
                                  (JString "Request service error"))
                               (status response))),
                  logged)
             | _ =>
                 (inl (Http (mkHttpException (JString "Request service error")
                               (status response))),
                  logged)
             end
    | inl _ => unavailable
    end.
Proof.
  cbv zeta.
  unfold RequestController.createRequest, tryCatchJs, awaitFetch, awaitJson, getProperty,
    throwJs, writeLine, mbind, mret, Async_bind, Async_ret; simpl.
  destruct (fetch net _) as [message|response]; simpl; [reflexivity|].
  destruct (ok response); simpl.
  - destruct (json response) as [message|data]; reflexivity.
  - destruct (RequestController.errorBody response); reflexivity.
Qed.

(** [value || fallback] is truthy when the fallback is. *)
Lemma orElse_truthy (value : option Json) (fallback : Json) :
  truthy fallback = true -> truthy (orElse value fallback) = true.
Proof.
  intros Hf. unfold orElse.
  destruct value as [v|]; [|exact Hf].
  destruct (truthy v) eqn:Hv; [exact Hv|exact Hf].
Qed.

End GatewayFacts.

(** X8: the budget proxy of the gateway answers with the parsed body exactly
    when [fetch] resolves to an ok response whose body is JSON, and then
    writes nothing to the console.  In every other case it rejects with an
    [HttpException], never with the raw error, and writes one line to the
    console.  Which exception is decided by what [fetch] did: for a
    response that is not ok, the exception carries the status of that
    response and the text Budget service error: followed by its status
    text; when [fetch] rejects, or the body of an ok response is not JSON,
    it carries status 503 and the text Failed to fetch budget
    information. *)
Theorem budget_proxy_outcome
    (net : Js.Net) (config : string -> option string) (departmentId : string)
    (console : Js.Console) :
  let request :=
    Js.mkRequest
      (GatewayBudgetController.budgetServiceUrl config
       +:+ "/api/v1/budgets/" +:+ departmentId +:+ "/available")
      "GET" [] None in
  let run := GatewayBudgetController.getAvailableBudget net config departmentId console in
  let unavailable :=
    Js.Http (Js.mkHttpException (Js.JString "Failed to fetch budget information") 503) in
  (forall data,
     fst run = inr data
     <-> exists response,
           Js.fetch net request = inr response
           /\ Js.ok response = true /\ Js.json response = inr data)
  /\ (forall data, fst run = inr data -> snd run = console)
  /\ (forall error,
        fst run = inl error ->
        snd run = console ++ ["Error calling Budget Service:"]
        /\ exists e, error = Js.Http e)
  /\ (forall response,
        Js.fetch net request = inr response ->
        Js.ok response = false ->
        fst run
        = inl (Js.Http (Js.mkHttpException
                          (Js.JString ("Budget service error: " +:+ Js.statusText response))
                          (Js.status response))))
  /\ (forall response message,
        Js.fetch net request = inr response ->
        Js.ok response = true ->
        Js.json response = inl message ->
        fst run = inl unavailable)
  /\ (forall message,
        Js.fetch net request = inl message ->
        fst run = inl unavailable).
Proof.
  cbv zeta.
  pose proof (GatewayFacts.budget_proxy_run net config departmentId console) as Hrun.
  cbv zeta in Hrun. rewrite Hrun. clear Hrun.
  destruct (Js.fetch net _) as [message|response] eqn:Hfetch.
  - repeat apply conj.
    + intros data. split; [discriminate|]. intros (r & Hr & _). discriminate.
    + discriminate.
    + intros error [= <-]. split; [reflexivity|]. eexists. reflexivity.
    + discriminate.
    + discriminate.
    + reflexivity.
  - destruct (Js.ok response) eqn:Hok.
    + destruct (Js.json response) as [message|data'] eqn:Hjson.
      * repeat apply conj.
        -- intros data. split; [discriminate|].
           intros (r & [= <-] & _ & Hj). congruence.
        -- discriminate.
        -- intros error [= <-]. split; [reflexivity|]. eexists. reflexivity.
        -- intros r [= <-] Hk. congruence.
        -- reflexivity.
        -- discriminate.
      * repeat apply conj.
        -- intros data. split.
           ++ intros [= <-]. exists response. auto.
           ++ intros (r & [= <-] & _ & Hj). simpl. congruence.
        -- reflexivity.
        -- discriminate.
        -- intros r [= <-] Hk. congruence.
        -- intros r m [= <-] _ Hj. congruence.
        -- discriminate.
    + repeat apply conj.
      * intros data. split; [discriminate|].
        intros (r & [= <-] & Hk & _). congruence.
      * discriminate.
      * intros error [= <-]. split; [reflexivity|]. eexists. reflexivity.
      * intros r [= <-] _. reflexivity.
      * intros r m [= <-] Hk. congruence.
      * discriminate.
Qed.

(** X9: what the request proxy makes of an upstream error.  When the
    upstream answers with a response that is not ok, the proxy rejects with
    an [HttpException] that carries the upstream status and a payload that
    is never empty (the message of the error body, or a default), unless
    the error body is the JSON value [null]: reading its message throws,
    and the proxy then answers 503 and the upstream status is lost. *)
Theorem request_proxy_upstream_error
    (net : Js.Net) (config : string -> option string) (requestBody : Js.Json)
    (console : Js.Console) (response : Js.Response) :
  Js.fetch net
    (Js.mkRequest (RequestController.requestServiceUrl config +:+ "/api/v1/requests") "POST"
       [("Content-Type", "application/json")] (Some (Js.stringify net requestBody)))
  = inr response ->
  Js.ok response = false ->
  exists e,
    fst (RequestController.createRequest net config requestBody console) = inl (Js.Http e)
    /\ Js.truthy (Js.getResponse e) = true
    /\ Js.getStatus e
       = match Js.json response with
         | inr Js.JNull => 503
         | _ => Js.status response
         end.
Proof.
  intros Hfetch Hok.
  pose proof (GatewayFacts.request_proxy_run net config requestBody console) as Hrun.
  cbv zeta in Hrun. rewrite Hrun, Hfetch, Hok. clear Hrun.
  unfold RequestController.errorBody.
  destruct (Js.json response) as [message|value].
  - eexists. split; [reflexivity|]. split; [|reflexivity].
    cbn [Js.getResponse]. apply GatewayFacts.orElse_truthy. reflexivity.
  - destruct value as [| | | | |members];
      eexists; (split; [reflexivity|]); (split; [|reflexivity]); try reflexivity.
    cbn [Js.getResponse]. apply GatewayFacts.orElse_truthy. reflexivity.
Qed.

Lemma request_proxy_upstream_error_witness :
  exists e,
    fst (RequestController.createRequest GatewaySample.refusesWithNull GatewaySample.noConfig
           (Js.JObject []) [])
    = inl (Js.Http e)
    /\ Js.truthy (Js.getResponse e) = true
    /\ Js.getStatus e = 503.
Proof.
  apply (request_proxy_upstream_error GatewaySample.refusesWithNull GatewaySample.noConfig
           (Js.JObject []) []
           (Js.mkResponse false 422 "Unprocessable Entity" (inr Js.JNull))).
  - reflexivity.
  - reflexivity.
Defined.

(** The request proxy on the two sample upstreams: a null error body turns
    a 422 into a 503; an error body with a message keeps the 404 and the
    message. *)
Example request_proxy_samples :
  fst (RequestController.createRequest GatewaySample.refusesWithNull GatewaySample.noConfig
         (Js.JObject []) [])
  = inl (Js.Http (Js.mkHttpException (Js.JString "Failed to create purchase request") 503))
  /\ fst (RequestController.createRequest GatewaySample.refusesWithMessage
            GatewaySample.noConfig (Js.JObject []) [])
     = inl (Js.Http (Js.mkHttpException (Js.JString "No such department") 404))
  /\ fst (GatewayBudgetController.getAvailableBudget GatewaySample.unreachable
            GatewaySample.noConfig "D1" [])
     = inl (Js.Http (Js.mkHttpException (Js.JString "Failed to fetch budget information") 503)).
Proof. repeat split; reflexivity. Qed.

Module KafkaFacts.

Import Js KafkaService.

Ltac run_kafka :=
  unfold onModuleInit, publishEvent, onModuleDestroy, producerConnect, consumerConnect,
    producerDisconnect, consumerDisconnect, producerSend, getProperty, checkConnection,
    setKafka, setProducer, setConsumer, setIsConnected, logger, tryCatchJs, throwJs,
    mbind, mret, Async_bind, Async_ret; simpl.

(** [onModuleInit] always resolves; what it leaves of the connection. *)
Lemma onModuleInit_run (lib : Kafkajs) (processEnv : string -> option string) (s : State) :
  let run := onModuleInit lib processEnv s in
  fst run = inr tt
  /\ isConnected (snd run) = producerConnects lib && consumerConnects lib
  /\ producer (snd run) = Some (producerConnects lib)
  /\ sent (snd run) = sent s
  /\ (isConnected (snd run) = true -> bothConnected (snd run)).
Proof.
  cbv zeta. unfold bothConnected. run_kafka.
  destruct (producerConnects lib); simpl.
  - destruct (consumerConnects lib); simpl; repeat split; eauto; discriminate.
  - repeat split; discriminate.
Qed.

(** One run of [publishEvent] on a service whose producer is connected. *)
Lemma publishEvent_run (lib : Kafkajs) (topic : string) (event : Json) (s : State) :
  producer s = Some true ->
  publishEvent lib topic event s
  = if negb (isConnected s)
    then (inr tt,
          mkState (kafka s) (producer s) (consumer s) (isConnected s) (sent s)
            (logged s ++ [(WARN, "Kafka not connected. Skipping event: " +:+ topic)]))
    else
      let failed :=
        mkState (kafka s) (producer s) (consumer s) (isConnected s) (sent s)
          (logged s ++ [(ERR, "Failed to publish event to " +:+ topic)]) in
      match event with
      | JNull => (inl (Error "Cannot read properties of null (reading 'id')"), failed)
      | _ =>
          if sendSucceeds lib topic (messageFor lib event (idOf event))
          then (inr tt,
                mkState (kafka s) (producer s) (consumer s) (isConnected s)
                  (sent s ++ [(topic, messageFor lib event (idOf event))])
                  (logged s ++ [(LOG, "📤 Event published to topic: " +:+ topic)]))
          else (inl (Error "send failed"), failed)
      end.
Proof.
  destruct s as [k p c connected out lines]. simpl. intros ->.
  unfold messageFor, idOf. run_kafka.
  destruct connected; simpl; [|reflexivity].
  destruct event; simpl;
    try (destruct (sendSucceeds lib topic _); reflexivity).
  reflexivity.
Qed.

(** While the service says it is connected, both clients are. *)
Lemma kafkaReaches_connected (s : State) :
  kafkaReaches s -> isConnected s = true -> bothConnected s.
Proof.
  induction 1 as [|s lib processEnv _ _|s lib topic event _ IH].
  - discriminate.
  - apply onModuleInit_run.
  - intros Hc.
    assert (Hkeep : isConnected (snd (publishEvent lib topic event s)) = isConnected s
                    /\ producer (snd (publishEvent lib topic event s)) = producer s
                    /\ consumer (snd (publishEvent lib topic event s)) = consumer s).
    { destruct s as [k p c connected out lines]. run_kafka.
      destruct connected; simpl; [|auto].
      destruct event; simpl; auto;
        destruct p as [[|]|]; simpl; auto;
        destruct (sendSucceeds lib topic _); simpl; auto. }
    destruct Hkeep as (Hi & Hp & Hcons).
    unfold bothConnected. rewrite Hp, Hcons. apply IH. congruence.
Qed.

(** [split] never yields the empty list. *)
Lemma split_cons (text : string) : exists piece pieces, split text = piece :: pieces.
Proof.
  destruct text as [|c rest]; simpl; [eauto|].
  destruct (Ascii.eqb c _); [eauto|].
  destruct (split rest); eauto.
Qed.

Lemma join_cons (piece next : string) (more : list string) :
  join (piece :: next :: more) = piece +:+ "," +:+ join (next :: more).
Proof. reflexivity. Qed.

(** Joining the pieces with commas gives the text back. *)
Lemma join_split (text : string) : join (split text) = text.
Proof.
  induction text as [|c rest IH]; [reflexivity|].
  cbn [split].
  destruct (split_cons rest) as (piece & pieces & Hs).
  rewrite Hs in *.
  destruct (Ascii.eqb_spec c (Ascii.ascii_of_nat 44)) as [->|Hc].
  - rewrite join_cons, IH. reflexivity.
  - destruct pieces as [|next more].
    + simpl in *. now rewrite IH.
    + rewrite join_cons in *. rewrite <- IH. reflexivity.
Qed.

(** No piece holds a comma. *)
Lemma split_no_comma (text : string) :
  Forall (fun piece => occurs (Ascii.ascii_of_nat 44) piece = false) (split text).
Proof.
  induction text as [|c rest IH]; [repeat constructor|].
  cbn [split].
  destruct (Ascii.eqb c (Ascii.ascii_of_nat 44)) eqn:Hc.
  - constructor; [reflexivity|exact IH].
  - destruct (split rest) as [|piece pieces]; [repeat constructor; simpl; now rewrite Hc|].
    inversion IH as [|? ? Hpiece Hrest]; subst.
    constructor; [|exact Hrest].
    simpl. now rewrite Hc, Hpiece.
Qed.

End KafkaFacts.

(** X10: what [onModuleInit] leaves of the connection.  It never rejects,
    whatever kafkajs does.  Afterwards the service says it is connected
    exactly when both the producer and the consumer connected: a consumer
    that fails to connect leaves the service disconnected although its
    producer is connected.  The health endpoint then always answers healthy,
    with the Kafka dependency connected exactly in that case. *)
Theorem kafka_connected_iff_both
    (lib : KafkaService.Kafkajs) (processEnv : string -> option string)
    (s : KafkaService.State) (process : HealthController.Process) :
  let init := KafkaService.onModuleInit lib processEnv s in
  let both :=
    KafkaService.producerConnects lib = true /\ KafkaService.consumerConnects lib = true in
  fst init = inr tt
  /\ (KafkaService.isConnected (snd init) = true <-> both)
  /\ KafkaService.producer (snd init) = Some (KafkaService.producerConnects lib)
  /\ exists health,
       HealthController.getHealth process (snd init) = (inr health, snd init)
       /\ HealthController.healthStatus health = "healthy"
       /\ (HealthController.kafkaDependency health = "connected" <-> both)
       /\ (HealthController.kafkaDependency health = "disconnected" <-> ~ both).
Proof.
  cbv zeta.
  destruct (KafkaFacts.onModuleInit_run lib processEnv s) as (Hret & Hconn & Hprod & _).
  cbv zeta in *.
  split; [exact Hret|]. split; [rewrite Hconn; apply andb_true_iff|].
  split; [exact Hprod|].
  unfold HealthController.getHealth, KafkaService.checkConnection,
    mbind, mret, Js.Async_bind, Js.Async_ret.
  eexists. split; [reflexivity|]. cbn [HealthController.healthStatus
    HealthController.kafkaDependency]. rewrite Hconn.
  split; [reflexivity|].
  destruct (KafkaService.producerConnects lib), (KafkaService.consumerConnects lib);
    simpl; split.
  - split; auto.
  - split; [discriminate|]. intros H. exfalso. apply H. auto.
  - split; [discriminate|]. intros [_ H]. discriminate H.
  - split; [|reflexivity]. intros _ [_ H]. discriminate H.
  - split; [discriminate|]. intros [H _]. discriminate H.
  - split; [|reflexivity]. intros _ [H _]. discriminate H.
  - split; [discriminate|]. intros [H _]. discriminate H.
  - split; [|reflexivity]. intros _ [H _]. discriminate H.
Qed.

(** A service that says it is not connected drops the event. *)
Lemma publishEvent_disconnected (lib : KafkaService.Kafkajs) (topic : string)
    (event : Js.Json) (s : KafkaService.State) :
  KafkaService.isConnected s = false ->
  KafkaService.publishEvent lib topic event s
  = (inr tt,
     KafkaService.mkState (KafkaService.kafka s) (KafkaService.producer s)
       (KafkaService.consumer s) (KafkaService.isConnected s) (KafkaService.sent s)
       (KafkaService.logged s
        ++ [(KafkaService.WARN, "Kafka not connected. Skipping event: " +:+ topic)])).
Proof.
  destruct s as [k p c connected out lines]. simpl. intros ->.
  reflexivity.
Qed.

(** X11: events are dropped silently after a failed initialisation.  When
    the producer or the consumer did not connect in [onModuleInit], every
    later [publishEvent] resolves without an error and sends nothing, for
    any topic and any event, the JSON value [null] included. *)
Theorem publish_dropped_after_failed_init
    (lib lib' : KafkaService.Kafkajs) (processEnv : string -> option string)
    (s : KafkaService.State) (topic : string) (event : Js.Json) :
  KafkaService.producerConnects lib && KafkaService.consumerConnects lib = false ->
  let s1 := snd (KafkaService.onModuleInit lib processEnv s) in
  let run := KafkaService.publishEvent lib' topic event s1 in
  fst run = inr tt
  /\ KafkaService.sent (snd run) = KafkaService.sent s
  /\ KafkaService.isConnected (snd run) = false.
Proof.
  intros Hdown. cbv zeta.
  destruct (KafkaFacts.onModuleInit_run lib processEnv s) as (_ & Hconn & _ & Hsent & _).
  cbv zeta in *. rewrite Hdown in Hconn.
  rewrite (publishEvent_disconnected lib' topic event _ Hconn). simpl.
  auto.
Qed.

Lemma publish_dropped_after_failed_init_witness :
  let s1 :=
    snd (KafkaService.onModuleInit KafkaSample.consumerDown KafkaSample.noEnv
           KafkaService.fresh) in
  let run := KafkaService.publishEvent KafkaSample.allUp "department.created" Js.JNull s1 in
  fst run = inr tt
  /\ KafkaService.sent (snd run) = KafkaService.sent KafkaService.fresh
  /\ KafkaService.isConnected (snd run) = false.
Proof.
  cbv zeta.
  apply (publish_dropped_after_failed_init KafkaSample.consumerDown KafkaSample.allUp).
  reflexivity.
Defined.

(** X12: when [publishEvent] rejects.  In every state the service reaches
    from its construction by initialisations and publications,
    [publishEvent] rejects exactly when the service says it is connected
    and either the event is [null] (reading its [id] throws) or the broker
    does not take the message; a rejected call sends nothing, and a call
    that resolves on a connected service has sent exactly one message, on
    the topic asked for, whose key is the [id] of the event when it has a
    truthy one. *)
Theorem publish_rejects_iff
    (s : KafkaService.State) (lib : KafkaService.Kafkajs) (topic : string)
    (event : Js.Json) :
  kafkaReaches s ->
  let run := KafkaService.publishEvent lib topic event s in
  let message := messageFor lib event (idOf event) in
  ((exists error, fst run = inl error)
   <-> KafkaService.isConnected s = true
       /\ (event = Js.JNull \/ KafkaService.sendSucceeds lib topic message = false))
  /\ ((exists error, fst run = inl error) ->
      KafkaService.sent (snd run) = KafkaService.sent s)
  /\ (fst run = inr tt -> KafkaService.isConnected s = true ->
      KafkaService.sent (snd run) = KafkaService.sent s ++ [(topic, message)]
      /\ forall id, idOf event = Some id -> Js.truthy id = true ->
                    KafkaService.key message = id).
Proof.
  intros Hreach. cbv zeta.
  destruct (KafkaService.isConnected s) eqn:Hconn.
  - destruct (KafkaFacts.kafkaReaches_connected s Hreach Hconn) as (Hprod & _).
    rewrite (KafkaFacts.publishEvent_run lib topic event s Hprod), Hconn. cbv zeta. simpl.
    assert (Hkey : forall id, idOf event = Some id -> Js.truthy id = true ->
                     KafkaService.key (messageFor lib event (idOf event)) = id).
    { intros id -> Ht. simpl. now rewrite Ht. }
    destruct event as [|b|n|text|items|members]; simpl;
      [ split; [split; eauto|]; split; [reflexivity|]; discriminate | .. ];
      (destruct (KafkaService.sendSucceeds lib topic _) eqn:Hsend; simpl;
       [ split;
         [ split; [intros (e & He); discriminate He
                  |intros (_ & [Hn|Hs]); [discriminate Hn|discriminate Hs]]
         | split; [intros (e & He); discriminate He
                  |intros _ _; split; [reflexivity|exact Hkey]] ]
       | split;
         [ split; [auto|eauto]
         | split; [reflexivity|intros He; discriminate He] ] ]).
  - rewrite (publishEvent_disconnected lib topic event s Hconn). simpl.
    split; [split; [intros (e & He); discriminate He|intros (Hc & _); discriminate Hc]|].
    split; [intros (e & He); discriminate He|]. intros _ Hc. discriminate Hc.
Qed.

Lemma publish_rejects_iff_witness :
  let s :=
    snd (KafkaService.onModuleInit KafkaSample.allUp KafkaSample.noEnv KafkaService.fresh) in
  let event := Js.JObject [("id", Js.JString "evt-1")] in
  let run := KafkaService.publishEvent KafkaSample.allUp "budget.events" event s in
  let message := messageFor KafkaSample.allUp event (idOf event) in
  ((exists error, fst run = inl error)
   <-> KafkaService.isConnected s = true
       /\ (event = Js.JNull
           \/ KafkaService.sendSucceeds KafkaSample.allUp "budget.events" message = false))
  /\ ((exists error, fst run = inl error) ->
      KafkaService.sent (snd run) = KafkaService.sent s)
  /\ (fst run = inr tt -> KafkaService.isConnected s = true ->
      KafkaService.sent (snd run) = KafkaService.sent s ++ [("budget.events", message)]
      /\ forall id, idOf event = Some id -> Js.truthy id = true ->
                    KafkaService.key message = id).
Proof.
  cbv zeta.
  apply (publish_rejects_iff _ KafkaSample.allUp "budget.events"
           (Js.JObject [("id", Js.JString "evt-1")])).
  apply kafkaReaches_init, kafkaReaches_fresh.
Defined.

(** X13: [onModuleDestroy] never rejects, sends nothing, and does not reset
    the connection flag: [checkConnection] answers after it what it
    answered before, also when the producer has just been disconnected. *)
Theorem destroy_keeps_connection_flag (lib : KafkaService.Kafkajs) (s : KafkaService.State) :
  let run := KafkaService.onModuleDestroy lib s in
  fst run = inr tt
  /\ KafkaService.sent (snd run) = KafkaService.sent s
  /\ fst (KafkaService.checkConnection (snd run)) = fst (KafkaService.checkConnection s)
  /\ (KafkaService.producer s <> None -> KafkaService.producerDisconnects lib = true ->
      KafkaService.producer (snd run) = Some false).
Proof.
  cbv zeta. destruct s as [k p c connected out lines].
  KafkaFacts.run_kafka.
  destruct p as [pc|]; simpl.
  - destruct (KafkaService.producerDisconnects lib); simpl.
    + destruct c as [[g cc]|]; simpl.
      * destruct (KafkaService.consumerDisconnects lib); simpl; auto.
      * auto.
    + repeat split; auto. discriminate.
  - destruct c as [[g cc]|]; simpl.
    + destruct (KafkaService.consumerDisconnects lib); simpl; repeat split; auto;
        intros H; now contradiction H.
    + repeat split; auto. intros H. now contradiction H.
Qed.

(** X14: the broker list of the client.  The list [onModuleInit] gives
    kafkajs is never empty, none of its entries holds a comma, and joined
    with commas it is the configured text, or [localhost:9092] when
    [KAFKA_BROKERS] is undefined or empty. *)
Theorem brokers_round_trip (processEnv : string -> option string) :
  let configured := Js.orDefault (processEnv "KAFKA_BROKERS") "localhost:9092" in
  let list := KafkaService.brokers (KafkaService.clientConfig processEnv) in
  (exists first rest, list = first :: rest)
  /\ Forall (fun entry => occurs (Ascii.ascii_of_nat 44) entry = false) list
  /\ KafkaService.join list = configured
  /\ configured <> ""
  /\ ((processEnv "KAFKA_BROKERS" = None \/ processEnv "KAFKA_BROKERS" = Some "") ->
      list = ["localhost:9092"]).
Proof.
  cbv zeta. simpl.
  split; [apply KafkaFacts.split_cons|].
  split; [apply KafkaFacts.split_no_comma|].
  split; [apply KafkaFacts.join_split|].
  split.
  - unfold Js.orDefault. destruct (processEnv "KAFKA_BROKERS") as [text|]; [|discriminate].
    destruct (String.eqb_spec text ""); [discriminate|assumption].
  - intros [-> | ->]; reflexivity.
Qed.

(* ===================================================================== *)
(** ** The user service                                                    *)
(* ===================================================================== *)

Module UserFacts.

Import Js UserDirectory.

(** One run of the producer of the user service. *)
Lemma user_publish_run (out : Outside) (eventType : string) (data : Json) (s : Store) :
  let record :=
    mkProduced "procurement.events" eventType
      (stringifyValue out
         (JObject [("eventType", JString eventType);
                   ("data", data);
                   ("service", JString "user-service");
                   ("timestamp", JString (producerNow out))])) in
  UserKafkaProducer.publishEvent out eventType data s
  = if brokerTakes out record
    then (inr tt,
          mkStore (users s) (departmentRows s) (produced s ++ [record])
            (consoleOut s ++ ["📤 Event published: " +:+ eventType]))
    else (inr tt,
          mkStore (users s) (departmentRows s) (produced s)
            (consoleOut s ++ ["Failed to publish event:"])).
Proof.
  cbv zeta.
  unfold UserKafkaProducer.publishEvent, UserKafkaProducer.producerSend, consoleLine,
    tryCatchJs, mbind, Async_bind; simpl.
  destruct (brokerTakes out _); reflexivity.
Qed.

End UserFacts.

(** X15: the producer of the user service never rejects.  [publishEvent]
    resolves whatever the broker does; it leaves both tables alone; and it
    hands the broker at most one record, always on the topic
    procurement.events and with the event type as key.  When the broker
    does not take the record the event is lost: the caller is not told. *)
Theorem user_publish_never_rejects
    (out : UserDirectory.Outside) (eventType : string) (data : Js.Json)
    (s : UserDirectory.Store) :
  let run := UserKafkaProducer.publishEvent out eventType data s in
  fst run = inr tt
  /\ UserDirectory.users (snd run) = UserDirectory.users s
  /\ UserDirectory.departmentRows (snd run) = UserDirectory.departmentRows s
  /\ exists records,
       UserDirectory.produced (snd run) = UserDirectory.produced s ++ records
       /\ (length records <= 1)%nat
       /\ Forall (fun r => UserDirectory.topic r = "procurement.events"
                           /\ UserDirectory.key r = eventType
                           /\ UserDirectory.brokerTakes out r = true) records.
Proof.
  cbv zeta. pose proof (UserFacts.user_publish_run out eventType data s) as Hrun.
  cbv zeta in Hrun. rewrite Hrun. clear Hrun.
  destruct (UserDirectory.brokerTakes out _) eqn:Htakes; simpl.
  - repeat split. eexists. split; [reflexivity|]. split; [simpl; lia|].
    repeat constructor. exact Htakes.
  - repeat split. exists []. rewrite app_nil_r. split; [reflexivity|].
    split; [simpl; lia|constructor].
Qed.

(** X16: [remove] deactivates and never deletes.  For a user the table
    holds, when the database accepts the query and the save, [remove]
    answers with its message, and afterwards the table holds the same
    identifiers as before, the row of the user is inactive and has all its
    other columns, the update date apart, as before, and every other row is
    untouched. *)
Theorem remove_deactivates
    (out : UserDirectory.Outside) (userId : string) (s : UserDirectory.Store)
    (u : UserDirectory.User) :
  UserDirectory.users s !! userId = Some u ->
  UserDirectory.id u = userId ->
  UserDirectory.findRejects out userId = false ->
  UserDirectory.saveRejects out (UserDirectory.setActive false u) = false ->
  let run := UserService.remove out userId s in
  fst run = inr "User deactivated successfully"
  /\ dom (UserDirectory.users (snd run)) = dom (UserDirectory.users s)
  /\ (forall other, other <> userId ->
        UserDirectory.users (snd run) !! other = UserDirectory.users s !! other)
  /\ (exists u',
        UserDirectory.users (snd run) !! userId = Some u'
        /\ UserDirectory.is_active u' = false
        /\ UserDirectory.touch (UserDirectory.updated_at u) u'
           = UserDirectory.setActive false u).
Proof.
  intros Hrow Hid Hfind Hsave. cbv zeta.
  unfold UserService.remove, UserService.findOne, UserDirectory.findOneById,
    UserDirectory.save, mbind, mret, Js.Async_bind, Js.Async_ret, Js.throwJs.
  rewrite Hfind, Hrow. cbn [UserDirectory.entity UserDirectory.department].
  rewrite Hsave.
  assert (Hsid : UserDirectory.id (UserDirectory.setActive false u) = userId) by exact Hid.
  cbv zeta. rewrite Hsid, Hrow.
  destruct (bool_decide (u = UserDirectory.setActive false u)
            && negb (UserDirectory.updatesUnchanged out (UserDirectory.setActive false u)))
    eqn:Hsame.
  - apply andb_prop in Hsame as [Heq%bool_decide_eq_true _].
    rewrite UserFacts.user_publish_run. cbv zeta.
    destruct (UserDirectory.brokerTakes out _); cbn [fst snd UserDirectory.users];
      (split; [reflexivity|]); (split; [reflexivity|]); (split; [reflexivity|]);
      exists u; (split; [exact Hrow|]);
      (split; [rewrite Heq; reflexivity|]);
      rewrite <- Heq; destruct u; reflexivity.
  - rewrite UserFacts.user_publish_run. cbv zeta.
    set (written := UserDirectory.touch (UserDirectory.databaseNow out)
                      (UserDirectory.setActive false u)).
    assert (Hwid : UserDirectory.id written = userId) by exact Hid.
    destruct (UserDirectory.brokerTakes out _); cbn [fst snd UserDirectory.users];
      rewrite Hwid;
      (split; [reflexivity|]);
      (split; [apply set_eq; intros k; rewrite dom_insert, elem_of_union, elem_of_singleton;
               split; [intros [->|Hk]; [apply elem_of_dom; eauto|exact Hk]|auto]|]);
      (split; [intros other Hother; now rewrite lookup_insert_ne|]);
      exists written; (split; [apply lookup_insert_eq|]);
      (split; [reflexivity|]);
      reflexivity.
Qed.

Lemma remove_deactivates_witness :
  let run :=
    UserService.remove UserSample.calm (UserDirectory.id UserSample.ada) UserSample.store0 in
  fst run = inr "User deactivated successfully"
  /\ dom (UserDirectory.users (snd run)) = dom (UserDirectory.users UserSample.store0)
  /\ (forall other, other <> UserDirectory.id UserSample.ada ->
        UserDirectory.users (snd run) !! other
        = UserDirectory.users UserSample.store0 !! other)
  /\ (exists u',
        UserDirectory.users (snd run) !! UserDirectory.id UserSample.ada = Some u'
        /\ UserDirectory.is_active u' = false
        /\ UserDirectory.touch (UserDirectory.updated_at UserSample.ada) u'
           = UserDirectory.setActive false UserSample.ada).
Proof.
  cbv zeta.
  apply (remove_deactivates UserSample.calm (UserDirectory.id UserSample.ada)
           UserSample.store0 UserSample.ada); reflexivity.
Defined.

(** X17: [remove] and [findOne] for a user the table does not hold.  When
    the database answers the query, both reject with the
    [NotFoundException] of status 404 whose response is the object with
    the message User with ID ... not found, the error Not Found and the
    status code 404, and nothing at all changes: no row is written, no
    event is handed to the broker, nothing is printed. *)
Theorem remove_unknown_user
    (out : UserDirectory.Outside) (userId : string) (s : UserDirectory.Store) :
  UserDirectory.users s !! userId = None ->
  UserDirectory.findRejects out userId = false ->
  let notFound :=
    Js.Http
      (Js.mkHttpException
         (Js.JObject [("message", Js.JString ("User with ID " +:+ userId +:+ " not found"));
                      ("error", Js.JString "Not Found");
                      ("statusCode", Js.JNumber (Js.mkNumber "404" false))])
         404) in
  UserService.remove out userId s = (inl notFound, s)
  /\ UserService.findOne out userId s = (inl notFound, s).
Proof.
  intros Hrow Hfind. cbv zeta.
  unfold UserService.remove, UserService.findOne, UserDirectory.findOneById,
    UserService.NotFoundException, mbind, mret, Js.Async_bind, Js.Async_ret, Js.throwJs.
  rewrite Hfind, Hrow. split; reflexivity.
Qed.

Lemma remove_unknown_user_witness :
  let notFound :=
    Js.Http
      (Js.mkHttpException
         (Js.JObject [("message", Js.JString ("User with ID " +:+ "nobody" +:+ " not found"));
                      ("error", Js.JString "Not Found");
                      ("statusCode", Js.JNumber (Js.mkNumber "404" false))])
         404) in
  UserService.remove UserSample.calm "nobody" UserSample.store0 = (inl notFound, UserSample.store0)
  /\ UserService.findOne UserSample.calm "nobody" UserSample.store0
     = (inl notFound, UserSample.store0).
Proof.
  cbv zeta.
  apply (remove_unknown_user UserSample.calm "nobody" UserSample.store0); reflexivity.
Defined.

(** X18: no event without a saved row.  Whatever the database and the
    broker do, if [remove] hands a record to the broker then the table
    holds the user as inactive: the event user.deleted is published only
    after the deactivation has been saved. *)
Theorem remove_event_implies_deactivated
    (out : UserDirectory.Outside) (userId : string) (s : UserDirectory.Store) :
  (forall k u, UserDirectory.users s !! k = Some u -> UserDirectory.id u = k) ->
  UserDirectory.produced (snd (UserService.remove out userId s)) <> UserDirectory.produced s ->
  exists u',
    UserDirectory.users (snd (UserService.remove out userId s)) !! userId = Some u'
    /\ UserDirectory.is_active u' = false
    /\ UserDirectory.key
         <$> last (UserDirectory.produced (snd (UserService.remove out userId s)))
       = Some "user.deleted".
Proof.
  intros Hkeys.
  unfold UserService.remove, UserService.findOne, UserDirectory.findOneById,
    UserDirectory.save, mbind, mret, Js.Async_bind, Js.Async_ret, Js.throwJs.
  destruct (UserDirectory.findRejects out userId); [intros H; now contradiction H|].
  destruct (UserDirectory.users s !! userId) as [u|] eqn:Hrow;
    [|intros H; now contradiction H].
  pose proof (Hkeys userId u Hrow) as Hid.
  cbn [UserDirectory.entity UserDirectory.department].
  destruct (UserDirectory.saveRejects out _); [intros H; now contradiction H|].
  assert (Hsid : UserDirectory.id (UserDirectory.setActive false u) = userId) by exact Hid.
  cbv zeta. rewrite Hsid, Hrow.
  destruct (bool_decide (u = UserDirectory.setActive false u)
            && negb (UserDirectory.updatesUnchanged out (UserDirectory.setActive false u)))
    eqn:Hsame;
    rewrite UserFacts.user_publish_run; cbv zeta;
    destruct (UserDirectory.brokerTakes out _);
    cbn [fst snd UserDirectory.users UserDirectory.produced];
    intros Hchanged; try (now contradiction Hchanged).
  - apply andb_prop in Hsame as [Heq%bool_decide_eq_true _].
    exists u. split; [exact Hrow|]. split; [rewrite Heq; reflexivity|].
    rewrite last_snoc. reflexivity.
  - set (written := UserDirectory.touch (UserDirectory.databaseNow out)
                      (UserDirectory.setActive false u)).
    assert (Hwid : UserDirectory.id written = userId) by exact Hid.
    rewrite Hwid. exists written. split; [apply lookup_insert_eq|].
    split; [reflexivity|]. rewrite last_snoc. reflexivity.
Qed.

Lemma remove_event_implies_deactivated_witness :
  exists u',
    UserDirectory.users
      (snd (UserService.remove UserSample.calm (UserDirectory.id UserSample.ada)
              UserSample.store0))
    !! UserDirectory.id UserSample.ada = Some u'
    /\ UserDirectory.is_active u' = false
    /\ UserDirectory.key
         <$> last (UserDirectory.produced
                     (snd (UserService.remove UserSample.calm
                             (UserDirectory.id UserSample.ada) UserSample.store0)))
       = Some "user.deleted".
Proof.
  apply (remove_event_implies_deactivated UserSample.calm (UserDirectory.id UserSample.ada)
           UserSample.store0).
  - intros k u Hk. unfold UserSample.store0 in Hk. cbn [UserDirectory.users] in Hk.
    apply lookup_singleton_Some in Hk as [<- <-]. reflexivity.
  - vm_compute. discriminate.
Defined.

(* ===================================================================== *)
(** ** More on the listings of the implementation plan                     *)
(* ===================================================================== *)

Module PlanFacts.

Import BudgetServicePlan.

(** One call keeps a well-formed ledger well-formed, and appends one
    RESERVE transaction exactly when it answers success. *)
Lemma reserveBudget_step (l : Ledger) (departmentId : string) (amount : BigDecimal) :
  ledgerOk l ->
  let run := reserveBudget departmentId amount l in
  ledgerOk (snd run)
  /\ exists txns,
       transactions (snd run) = transactions l ++ txns
       /\ length txns = (if succeeded (fst run) then 1 else 0)%nat
       /\ Forall (fun t => transactionType t = "RESERVE" /\ amount = BudgetServicePlan.amount t)
            txns.
Proof.
  intros Hok. cbv zeta.
  destruct (budgets l !! departmentId) as [b|] eqn:Hrow.
  - rewrite (BudgetServicePlanFacts.reserveBudget_run l departmentId amount b Hrow).
    fold (availableOf b). fold (reservedRow amount b).
    destruct (Z.ltb_spec (BigDecimal.compareTo (availableOf b) amount) 0) as [Hlt|Hge].
    + simpl. split; [exact Hok|]. exists []. rewrite app_nil_r. repeat split. constructor.
    + simpl. split.
      * destruct (Hok _ _ Hrow) as (Hkey & _).
        intros k b' Hk. simpl in Hk. rewrite Hkey in Hk.
        destruct (decide (departmentId = k)) as [<-|Hne].
        -- rewrite lookup_insert_eq in Hk. injection Hk as <-.
           split; [exact Hkey|].
           now apply BudgetServicePlanFacts.reservedRow_within.
        -- rewrite lookup_insert_ne in Hk by exact Hne. now apply Hok.
      * eexists. split; [reflexivity|]. split; [reflexivity|]. repeat constructor.
  - rewrite (BudgetServicePlanFacts.reserveBudget_no_row l departmentId amount Hrow).
    simpl. split; [exact Hok|]. exists []. rewrite app_nil_r. repeat split. constructor.
Qed.

End PlanFacts.

(** X19: the planned [reserveBudget] never overdraws and keeps its books.
    From a ledger whose rows are within their budgets, after any sequence
    of calls, for any departments and any amounts (zero, negative and
    unknown departments included), every row is within its budget still,
    no earlier transaction has been changed, and exactly one RESERVE
    transaction has been appended for each call that answered success. *)
Theorem reservations_never_overdraw
    (requests : list (string * BigDecimal)) (l : BudgetServicePlan.Ledger) :
  ledgerOk l ->
  let run := reserveAll requests l in
  ledgerOk (snd run)
  /\ length (fst run) = length requests
  /\ exists txns,
       BudgetServicePlan.transactions (snd run) = BudgetServicePlan.transactions l ++ txns
       /\ length txns = length (filter (fun o => succeeded o = true) (fst run))
       /\ Forall (fun t => BudgetServicePlan.transactionType t = "RESERVE") txns.
Proof.
  revert l. induction requests as [|[departmentId amount] rest IH]; intros l Hok; cbv zeta.
  - simpl. split; [exact Hok|]. split; [reflexivity|].
    exists []. rewrite app_nil_r. repeat split. constructor.
  - cbn [reserveAll].
    destruct (PlanFacts.reserveBudget_step l departmentId amount Hok)
      as (Hok1 & txns1 & Ht1 & Hn1 & Hall1).
    cbv zeta in *.
    destruct (BudgetServicePlan.reserveBudget departmentId amount l) as [o l1].
    cbn [fst snd] in *.
    destruct (IH l1 Hok1) as (Hok2 & Hlen & txns2 & Ht2 & Hn2 & Hall2).
    cbv zeta in *.
    destruct (reserveAll rest l1) as [os l2]. cbn [fst snd] in *.
    split; [exact Hok2|]. split; [simpl; now rewrite Hlen|].
    exists (txns1 ++ txns2). split; [rewrite Ht2, Ht1; now rewrite app_assoc|]. split.
    + rewrite length_app, Hn1, Hn2. rewrite filter_cons.
      destruct (succeeded o); simpl; [|reflexivity].
      destruct (decide (true = true)); [reflexivity|contradiction].
    + apply Forall_app. split; [|exact Hall2].
      eapply Forall_impl; [exact Hall1|]. intros t [Ht _]. exact Ht.
Qed.

Lemma reservations_never_overdraw_witness :
  let requests :=
    [("D1", Sample.money 800000); ("D1", Sample.money 800000); ("D7", Sample.money 100);
     ("D1", Sample.money (-5000))] in
  let run := reserveAll requests Sample.ledger0 in
  ledgerOk (snd run)
  /\ length (fst run) = length requests
  /\ exists txns,
       BudgetServicePlan.transactions (snd run)
       = BudgetServicePlan.transactions Sample.ledger0 ++ txns
       /\ length txns = length (filter (fun o => succeeded o = true) (fst run))
       /\ Forall (fun t => BudgetServicePlan.transactionType t = "RESERVE") txns.
Proof.
  cbv zeta.
  apply (reservations_never_overdraw _ Sample.ledger0).
  intros k b Hk. unfold Sample.ledger0 in Hk. cbn [BudgetServicePlan.budgets] in Hk.
  apply lookup_singleton_Some in Hk as [<- <-].
  split; [reflexivity|]. unfold planWithinBudget. vm_compute. discriminate.
Defined.

(** The scenario of the plan, run: of two reservations of 8000.00 against
    10000.00 the first succeeds and the second is refused with the 2000.00
    that are left; an unknown department dereferences [null]; a negative
    amount is not refused. *)
Example plan_scenario :
  fst (reserveAll
         [("D1", Sample.money 800000); ("D1", Sample.money 800000); ("D7", Sample.money 100);
          ("D1", Sample.money (-5000))]
         Sample.ledger0)
  = [Returned BudgetServicePlan.success;
     Returned (BudgetServicePlan.insufficient (Sample.money 200000));
     Thrown NullPointerException;
     Returned BudgetServicePlan.success].
Proof. vm_compute. reflexivity. Qed.

(** X20: a reservation touches one row.  On a ledger whose rows are stored
    under their department identifiers, a call of the planned
    [reserveBudget] leaves the row of every other department as it was,
    and for an unknown department it throws [NullPointerException] and
    changes nothing at all. *)
Theorem reservation_touches_one_row
    (l : BudgetServicePlan.Ledger) (departmentId : string) (amount : BigDecimal) :
  (forall k b, BudgetServicePlan.budgets l !! k = Some b ->
               BudgetServicePlan.getDepartmentId b = k) ->
  let run := BudgetServicePlan.reserveBudget departmentId amount l in
  (forall other, other <> departmentId ->
     BudgetServicePlan.budgets (snd run) !! other = BudgetServicePlan.budgets l !! other)
  /\ (BudgetServicePlan.budgets l !! departmentId = None ->
      run = (Thrown NullPointerException, l)).
Proof.
  intros Hkeys. cbv zeta. split.
  - intros other Hother.
    destruct (BudgetServicePlan.budgets l !! departmentId) as [b|] eqn:Hrow.
    + rewrite (BudgetServicePlanFacts.reserveBudget_run l departmentId amount b Hrow).
      destruct (BigDecimal.compareTo _ amount <? 0); [reflexivity|].
      simpl. rewrite (Hkeys _ _ Hrow). now rewrite lookup_insert_ne.
    + now rewrite (BudgetServicePlanFacts.reserveBudget_no_row l departmentId amount Hrow).
  - apply BudgetServicePlanFacts.reserveBudget_no_row.
Qed.

Lemma reservation_touches_one_row_witness :
  let run := BudgetServicePlan.reserveBudget "D7" (Sample.money 100) Sample.ledger0 in
  (forall other, other <> "D7" ->
     BudgetServicePlan.budgets (snd run) !! other
     = BudgetServicePlan.budgets Sample.ledger0 !! other)
  /\ (BudgetServicePlan.budgets Sample.ledger0 !! "D7" = None ->
      run = (Thrown NullPointerException, Sample.ledger0)).
Proof.
  cbv zeta.
  apply (reservation_touches_one_row Sample.ledger0 "D7" (Sample.money 100)).
  intros k b Hk. unfold Sample.ledger0 in Hk. cbn [BudgetServicePlan.budgets] in Hk.
  apply lookup_singleton_Some in Hk as [<- <-]. reflexivity.
Defined.

(** The prefix of the Redis keys does not merge two idempotency keys. *)
Lemma redisKey_inj (k k' : string) :
  "request:idempotency:" +:+ k = "request:idempotency:" +:+ k' -> k = k'.
Proof. simpl. intros H. injection H as H. exact H. Qed.

(** X21: a failure is not cached.  When the operation throws on a call of
    the planned [createRequest] that found no live entry for its key, the
    call throws the same exception and Redis is left as it was: a later
    retry with the same key finds no entry either and runs the operation
    again. *)
Theorem failure_is_not_cached
    {CreateRequestDto PurchaseRequest App : Type}
    (processRequest : CreateRequestDto -> Eff App PurchaseRequest)
    (key : string) (now later : Z) (dto dto' : CreateRequestDto) (x : Throwable) (a' : App)
    (s : PurchaseRequestService.Store PurchaseRequest App) :
  (forall e, PurchaseRequestService.redis s !! ("request:idempotency:" +:+ key) = Some e ->
             PurchaseRequestService.expiresAt e <= now) ->
  processRequest dto (PurchaseRequestService.app s) = (Thrown x, a') ->
  now <= later ->
  let s1 := PurchaseRequestService.mkStore (PurchaseRequestService.redis s) a' in
  PurchaseRequestService.createRequest processRequest now dto key s = (Thrown x, s1)
  /\ fst (PurchaseRequestService.createRequest processRequest later dto' key s1)
     = fst (processRequest dto' a').
Proof.
  intros Hfresh Hfail Hlater. cbv zeta.
  rewrite (PurchaseRequestFacts.createRequest_miss processRequest now dto key s Hfresh), Hfail.
  split; [reflexivity|].
  rewrite (PurchaseRequestFacts.createRequest_miss processRequest later dto' key).
  - cbn [PurchaseRequestService.app].
    destruct (processRequest dto' a') as [[r|y] a'']; reflexivity.
  - cbn [PurchaseRequestService.redis]. intros e He. specialize (Hfresh e He). lia.
Qed.

Lemma failure_is_not_cached_witness :
  let s1 := PurchaseRequestService.mkStore (PurchaseRequestService.redis Sample.store0) 1%nat in
  PurchaseRequestService.createRequest PlanSample.fragileProcess 0 "broken" "k1" Sample.store0
  = (Thrown (RuntimeException "cannot process"), s1)
  /\ fst (PurchaseRequestService.createRequest PlanSample.fragileProcess 5 "laptop" "k1" s1)
     = fst (PlanSample.fragileProcess "laptop" 1%nat).
Proof.
  cbv zeta.
  apply (failure_is_not_cached PlanSample.fragileProcess "k1" 0 5 "broken" "laptop"
           (RuntimeException "cannot process") 1%nat Sample.store0).
  - intros e He. vm_compute in He. discriminate He.
  - reflexivity.
  - lia.
Defined.

(** X22: idempotency keys do not interfere.  A call of the planned
    [createRequest] under one key leaves the Redis entry of every other
    key as it was, whether it replays, runs the operation or throws: a
    response cached for one key is never served for another. *)
Theorem keys_do_not_interfere
    {CreateRequestDto PurchaseRequest App : Type}
    (processRequest : CreateRequestDto -> Eff App PurchaseRequest)
    (key other : string) (now : Z) (dto : CreateRequestDto)
    (s : PurchaseRequestService.Store PurchaseRequest App) :
  other <> key ->
  PurchaseRequestService.redis
    (snd (PurchaseRequestService.createRequest processRequest now dto key s))
  !! ("request:idempotency:" +:+ other)
  = PurchaseRequestService.redis s !! ("request:idempotency:" +:+ other).
Proof.
  intros Hother.
  assert (Hkeys : "request:idempotency:" +:+ key <> "request:idempotency:" +:+ other).
  { intros Heq. apply Hother. symmetry. now apply redisKey_inj. }
  unfold PurchaseRequestService.createRequest, PurchaseRequestService.redisGet,
    PurchaseRequestService.redisSet, PurchaseRequestService.runProcessRequest,
    mbind, mret, Eff_bind, Eff_ret.
  destruct (PurchaseRequestService.redis s !! ("request:idempotency:" +:+ key)) as [e|];
    [destruct (now <? PurchaseRequestService.expiresAt e); [reflexivity|]|];
    destruct (processRequest dto (PurchaseRequestService.app s)) as [[r|x] a'];
    cbn [snd PurchaseRequestService.redis]; try reflexivity;
    now rewrite lookup_insert_ne.
Qed.

Lemma keys_do_not_interfere_witness :
  PurchaseRequestService.redis
    (snd (PurchaseRequestService.createRequest Sample.countingProcess 0 "laptop" "k1"
            Sample.store0))
  !! ("request:idempotency:" +:+ "k2")
  = PurchaseRequestService.redis Sample.store0 !! ("request:idempotency:" +:+ "k2").
Proof.
  apply (keys_do_not_interfere Sample.countingProcess "k1" "k2" 0 "laptop" Sample.store0).
  discriminate.
Defined.
